(** * Dynamic filter component system: the filter engine and the sort comparator

    A shallow embedding of [utils/filterUtils.ts] (path resolver, per-type
    condition evaluators, validity filter, AND/OR filter engine) and of the
    comparator of [DataTable.tsx], followed by the properties of the
    specification proved, or refuted, on that embedding. *)

From Stdlib Require Import ZArith QArith Lqa String Ascii List.
From stdpp Require Import gmap strings list fin_maps.

Set Warnings "-register-all".

(** ** JavaScript values *)

Module Js.

(** A JavaScript number: the finite values are taken as exact rationals, next
    to the two infinities and NaN.  Rounding is not modelled. *)
Inductive number : Type :=
| NaN
| NegInf
| Fin (q : Q)
| PosInf.

Definition isNaN (n : number) : bool :=
  match n with NaN => true | _ => false end.

(** [a < b]; false as soon as one side is NaN. *)
Definition num_lt (a b : number) : bool :=
  match a, b with
  | NaN, _ | _, NaN => false
  | NegInf, NegInf => false
  | NegInf, _ => true
  | Fin _, NegInf => false
  | Fin x, Fin y => negb (Qle_bool y x)
  | Fin _, PosInf => true
  | PosInf, _ => false
  end.

(** [a > b] *)
Definition num_gt (a b : number) : bool := num_lt b a.

(** [a <= b]; false as soon as one side is NaN. *)
Definition num_le (a b : number) : bool :=
  match a, b with
  | NaN, _ | _, NaN => false
  | NegInf, _ => true
  | Fin _, NegInf => false
  | Fin x, Fin y => Qle_bool x y
  | Fin _, PosInf => true
  | PosInf, PosInf => true
  | PosInf, _ => false
  end.

(** [a >= b] *)
Definition num_ge (a b : number) : bool := num_le b a.

(** [a === b] on numbers: NaN differs from everything, itself included. *)
Definition num_eq (a b : number) : bool :=
  match a, b with
  | NegInf, NegInf | PosInf, PosInf => true
  | Fin x, Fin y => Qeq_bool x y
  | _, _ => false
  end.

(** Unary minus. *)
Definition num_neg (a : number) : number :=
  match a with
  | NaN => NaN
  | NegInf => PosInf
  | Fin x => Fin (Qopp x)
  | PosInf => NegInf
  end.

(** [a - b] *)
Definition num_sub (a b : number) : number :=
  match a, b with
  | NaN, _ | _, NaN => NaN
  | PosInf, PosInf | NegInf, NegInf => NaN
  | PosInf, _ => PosInf
  | NegInf, _ => NegInf
  | Fin _, PosInf => NegInf
  | Fin _, NegInf => PosInf
  | Fin x, Fin y => Fin (Qminus x y)
  end.

Definition num_of_Z (z : Z) : number := Fin (inject_Z z).

(** An array: an array of strings, the one array type of [Employee]
    ([skills: string[]]) and the parameter type of [filterMultiSelect], or
    [Array.prototype], the empty array that the [__proto__] of an array
    resolves to. *)
Inductive JsArray : Type :=
| ArrayOf (l : list string)
| ArrayPrototype.

(** The elements of an array. *)
Definition items (a : JsArray) : list string :=
  match a with
  | ArrayOf l => l
  | ArrayPrototype => []
  end.

(** The values a path can resolve to on a record.  An object is a plain
    object, given by the finite map of its own properties; its prototype is
    [Object.prototype].  A function is a built-in method reached through a
    prototype, named by the key it was found under. *)
Inductive JsValue : Type :=
| JUndefined
| JNull
| JBool (b : bool)
| JNum (n : number)
| JStr (s : string)
| JArr (l : JsArray)
| JObj (m : gmap string JsValue)
| JFunction (name : string).

(** [v === null || v === undefined] *)
Definition isNullish (v : JsValue) : bool :=
  match v with JUndefined | JNull => true | _ => false end.

(** The built-ins of the host the code calls and the repository does not
    define.  Everything below is stated for an arbitrary host. *)
Class Host : Type := {
  (** [String.prototype.toLowerCase] *)
  toLowerCase : string -> string;
  (** [parseFloat] *)
  parseFloat : string -> number;
  (** the time value, in milliseconds since the epoch, of [new Date(s)];
      [None] is an Invalid Date *)
  dateParse : string -> option Z;
  (** local time minus UTC, in milliseconds (a zone with a fixed offset) *)
  localOffset : Z;
  (** [String.prototype.localeCompare] *)
  localeCompare : string -> string -> number;
  (** [String(v)] *)
  toStr : JsValue -> string;
  (** the names of the methods of [Object.prototype], which every plain
      object inherits ([constructor], [toString], [hasOwnProperty], ...) *)
  objectPrototypeKeys : list string;
  (** the names of the methods an array inherits, from [Array.prototype]
      and, behind it, from [Object.prototype] *)
  arrayPrototypeKeys : list string
}.

(** *** Strings *)

Definition str_eq (a b : string) : bool := String.eqb a b.

(** *** Prototypes *)

(** A name is among the inherited methods. *)
Definition isMethod (names : list string) (k : string) : bool :=
  existsb (str_eq k) names.

(** [Object.prototype] itself: its methods are its own properties, and its
    [__proto__] is null. *)
Definition objectPrototype `{Host} : JsValue :=
  JObj (list_to_map (("__proto__", JNull)
                       :: map (fun k => (k, JFunction k)) objectPrototypeKeys)).

(** [k in {}]: what a plain object inherits, the accessor [__proto__] and
    the methods of [Object.prototype]. *)
Definition inheritedByObject `{Host} (k : string) : bool :=
  str_eq k "__proto__" || isMethod objectPrototypeKeys k.

(** [s.startsWith(p)] *)
Definition startsWith (s p : string) : bool := String.prefix p s.

(** [s.includes(p)] *)
Fixpoint includes (s p : string) : bool :=
  String.prefix p s ||
  match s with
  | EmptyString => false
  | String _ s' => includes s' p
  end.

(** [s.endsWith(p)] *)
Definition endsWith (s p : string) : bool :=
  let ls := String.length s in
  let lp := String.length p in
  (lp <=? ls)%nat && String.eqb (String.substring (ls - lp) lp s) p.

(** [s.split('.')]: never empty, the empty path splits into one empty key. *)
Fixpoint split_dot_aux (cur : string) (s : string) : list string :=
  match s with
  | EmptyString => [cur]
  | String c s' =>
      if Ascii.eqb c "."%char then cur :: split_dot_aux EmptyString s'
      else split_dot_aux (cur ++ String c EmptyString)%string s'
  end.

Definition split_dot (s : string) : list string := split_dot_aux EmptyString s.

(** *** Dates *)

(** A [Date] object by its time value; [None] is an Invalid Date.  The range
    limit of time values is not modelled. *)
Definition Date : Type := option Z.

Definition newDate `{Host} (s : string) : Date := dateParse s.

Definition msPerDay : Z := 86400000.

(** [d.setHours(h, m, s, ms)]: same local calendar day, new local time of
    day. *)
Definition setHours `{Host} (h m s ms : Z) (d : Date) : Date :=
  match d with
  | None => None
  | Some t =>
      let day := ((t + localOffset) `div` msPerDay)%Z in
      Some (day * msPerDay + (((h * 60 + m) * 60 + s) * 1000 + ms) - localOffset)%Z
  end.

(** [a < b] on dates: both are converted to their time value, NaN when
    invalid. *)
Definition date_lt (a b : Date) : bool :=
  match a, b with
  | Some x, Some y => (x <? y)%Z
  | _, _ => false
  end.

Definition date_gt (a b : Date) : bool := date_lt b a.

(** Truthiness of a [string | null]. *)
Definition truthy (o : option string) : bool :=
  match o with
  | Some s => negb (str_eq s EmptyString)
  | None => false
  end.

End Js.

(** ** types/index.ts *)

Module Types.
Import Js.

Inductive FilterOperator : Type :=
| OpEquals | OpContains | OpStartsWith | OpEndsWith | OpDoesNotContain
| OpGreaterThan | OpLessThan | OpGreaterThanOrEqual | OpLessThanOrEqual
| OpBetween
| OpIs | OpIsNot
| OpIn | OpNotIn.

#[global] Instance FilterOperator_eq_dec : EqDecision FilterOperator.
Proof. solve_decision. Defined.

(** A bound of a range: [string | number | null]. *)
Inductive Bound : Type :=
| BNull
| BStr (s : string)
| BNum (n : number).

Record RangeValue : Type := { min : Bound; max : Bound }.

Record DateRangeValue : Type :=
  { startDate : option string; endDate : option string }.

(** [FilterValue]: the union of the declaration, and [undefined], which the
    validity check tests for as well. *)
Inductive FilterValue : Type :=
| VStr (s : string)
| VNum (n : number)
| VBool (b : bool)
| VArr (l : list string)
| VRange (r : RangeValue)
| VDateRange (d : DateRangeValue)
| VNull
| VUndefined.

Record FilterCondition : Type :=
  { id : string; field : string; operator : FilterOperator; value : FilterValue }.

Inductive SortDirection : Type := asc | desc.

Record SortConfig : Type := { key : string; direction : SortDirection }.

End Types.

(** ** utils/filterUtils.ts *)

Module FilterUtils.
Import Js Types.

Section WithHost.
Context `{Host}.

(** [key in current], then [current[key]], for an array: the canonical
    decimal indices below the length, and [length]. *)
Fixpoint digits (s : string) (acc : N) : option N :=
  match s with
  | EmptyString => Some acc
  | String c s' =>
      let n := N_of_ascii c in
      if ((48 <=? n) && (n <=? 57))%N then digits s' (acc * 10 + (n - 48))%N
      else None
  end.

Definition arrayIndex (k : string) : option N :=
  match k with
  | EmptyString => None
  | String "0"%char EmptyString => Some 0%N
  | String "0"%char _ => None
  | _ => digits k 0%N
  end.

(** One step of the reduction of [getNestedValue]:
    [current && typeof current === 'object' && key in current
       ? current[key] : undefined].
    [in] and the read that follows see the own properties first, then the
    prototype chain: on a plain object [__proto__] and the methods of
    [Object.prototype]; on an array [length], the indices below it, then
    [__proto__] and the inherited methods.  A function is not of type
    ['object'], so nothing resolves on it. *)
Definition getProperty (current : JsValue) (k : string) : JsValue :=
  match current with
  | JObj m =>
      match m !! k with
      | Some v => v
      | None =>
          if str_eq k "__proto__" then objectPrototype
          else if isMethod objectPrototypeKeys k then JFunction k
          else JUndefined
      end
  | JArr l =>
      if str_eq k "length" then JNum (num_of_Z (Z.of_nat (length (items l))))
      else
        match arrayIndex k with
        | Some i =>
            match nth_error (items l) (N.to_nat i) with
            | Some s => JStr s
            | None => JUndefined
            end
        | None =>
            if str_eq k "__proto__" then
              match l with
              | ArrayOf _ => JArr ArrayPrototype
              | ArrayPrototype => objectPrototype
              end
            else if isMethod arrayPrototypeKeys k then JFunction k
            else JUndefined
        end
  | _ => JUndefined
  end.

Definition getNestedValue (obj : JsValue) (path : string) : JsValue :=
  foldl getProperty obj (split_dot path).

(** *** Per-type evaluators *)

Definition filterText (value filterValue : string) (operator : FilterOperator) : bool :=
  let lowerValue := toLowerCase value in
  let lowerFilter := toLowerCase filterValue in
  match operator with
  | OpEquals => str_eq lowerValue lowerFilter
  | OpContains => includes lowerValue lowerFilter
  | OpStartsWith => startsWith lowerValue lowerFilter
  | OpEndsWith => endsWith lowerValue lowerFilter
  | OpDoesNotContain => negb (includes lowerValue lowerFilter)
  | _ => true
  end.

Definition filterNumber (value filterValue : number) (operator : FilterOperator) : bool :=
  match operator with
  | OpEquals => num_eq value filterValue
  | OpGreaterThan => num_gt value filterValue
  | OpLessThan => num_lt value filterValue
  | OpGreaterThanOrEqual => num_ge value filterValue
  | OpLessThanOrEqual => num_le value filterValue
  | _ => true
  end.

Definition filterDateRange (value : string) (filterValue : DateRangeValue) : bool :=
  let date := newDate value in
  let '{| startDate := startDate; endDate := endDate |} := filterValue in
  (* if both dates are null/empty, don't filter *)
  if negb (truthy startDate) && negb (truthy endDate) then true
  (* check start date *)
  else if match startDate with
          | Some s => truthy startDate && date_lt date (newDate s)
          | None => false
          end then false
  (* check end date, moved to the end of its day *)
  else if match endDate with
          | Some e => truthy endDate && date_gt date (setHours 23 59 59 999 (newDate e))
          | None => false
          end then false
  else true.

Definition isNullBound (b : Bound) : bool :=
  match b with BNull => true | _ => false end.

Definition isEmptyBound (b : Bound) : bool :=
  match b with BStr s => str_eq s EmptyString | _ => false end.

Definition filterAmountRange (value : number) (filterValue : RangeValue) : bool :=
  let '{| min := min; max := max |} := filterValue in
  (* if both are null/empty, don't filter *)
  if isNullBound min && isNullBound max then true
  else if isEmptyBound min && isEmptyBound max then true
  (* check minimum *)
  else if negb (isNullBound min) && negb (isEmptyBound min) &&
          match min with
          | BStr s => let minNum := parseFloat s in negb (isNaN minNum) && num_lt value minNum
          | BNum minNum => negb (isNaN minNum) && num_lt value minNum
          | BNull => false
          end then false
  (* check maximum *)
  else if negb (isNullBound max) && negb (isEmptyBound max) &&
          match max with
          | BStr s => let maxNum := parseFloat s in negb (isNaN maxNum) && num_gt value maxNum
          | BNum maxNum => negb (isNaN maxNum) && num_gt value maxNum
          | BNull => false
          end then false
  else true.

Definition filterSingleSelect (value filterValue : string) (operator : FilterOperator) : bool :=
  let lowerValue := toLowerCase value in
  let lowerFilter := toLowerCase filterValue in
  match operator with
  | OpIs => str_eq lowerValue lowerFilter
  | OpIsNot => negb (str_eq lowerValue lowerFilter)
  | _ => true
  end.

(** [xs.includes(x)] on an array of strings. *)
Definition arr_includes (xs : list string) (x : string) : bool :=
  existsb (str_eq x) xs.

Definition filterMultiSelect (value filterValues : list string) (operator : FilterOperator) : bool :=
  if (length filterValues =? 0)%nat then true
  else
    let lowerValues := map toLowerCase value in
    let lowerFilters := map toLowerCase filterValues in
    match operator with
    | OpIn => existsb (fun filter => arr_includes lowerValues filter) lowerFilters
    | OpNotIn => negb (existsb (fun filter => arr_includes lowerValues filter) lowerFilters)
    | _ => true
    end.

Definition filterBoolean (value filterValue : bool) : bool :=
  Bool.eqb value filterValue.

(** *** Validity of a condition *)

Definition hasValidFilterValue (filter : FilterCondition) : bool :=
  let value := filter.(value) in
  let operator := filter.(operator) in
  match value with
  (* null/undefined *)
  | VNull | VUndefined => false
  | _ =>
    (* empty string *)
    if match value with VStr s => str_eq s EmptyString | _ => false end then false
    (* range values (date and amount) *)
    else if bool_decide (operator = OpBetween) then
      match value with
      | VDateRange dateRange =>
          truthy dateRange.(startDate) || truthy dateRange.(endDate)
      | VRange range =>
          negb (isNullBound range.(min)) && negb (isEmptyBound range.(min)) ||
          negb (isNullBound range.(max)) && negb (isEmptyBound range.(max))
      | _ => false
      end
    (* array values (multiSelect) *)
    else
      match value with
      | VArr l => (0 <? length l)%nat
      | _ => true
      end
  end.

(** *** One condition on one record *)

Definition applyFilter (record : JsValue) (filter : FilterCondition) : bool :=
  let field := filter.(field) in
  let operator := filter.(operator) in
  let value := filter.(value) in
  let fieldValue := getNestedValue record field in
  (* null/undefined field values *)
  if isNullish fieldValue then false
  else
    match fieldValue, value with
    (* text, or single select *)
    | JStr fv, VStr v =>
        if bool_decide (operator = OpIs) || bool_decide (operator = OpIsNot)
        then filterSingleSelect fv v operator
        else filterText fv v operator
    (* number *)
    | JNum fv, VNum v => filterNumber fv v operator
    (* amount range *)
    | JNum fv, VRange r =>
        if bool_decide (operator = OpBetween) then filterAmountRange fv r else true
    (* date range *)
    | JStr fv, VDateRange d =>
        if bool_decide (operator = OpBetween) then filterDateRange fv d else true
    (* multi-select *)
    | JArr fv, VArr v => filterMultiSelect (items fv) v operator
    (* boolean *)
    | JBool fv, VBool v => filterBoolean fv v
    | _, _ => true
    end.

(** *** All conditions on all records *)

(** The reducer that builds [filtersByField].  The accumulator is a plain
    object, given by the finite map of its own properties, from field key
    to the conditions pushed so far; none at the start.  [acc[filter.field]]
    reads an own property, an array, or else what a plain object inherits
    under that key: a method or [Object.prototype], which is truthy, so that
    no array is stored, and has no [push], so that the call throws a
    [TypeError]: [None]. *)
Definition groupStep (acc : gmap string (list FilterCondition)) (filter : FilterCondition)
  : option (gmap string (list FilterCondition)) :=
  match acc !! filter.(field) with
  | Some _ => Some (alter (fun fs => fs ++ [filter]) filter.(field) acc)
  | None =>
      if inheritedByObject filter.(field) then None
      else Some (alter (fun fs => fs ++ [filter]) filter.(field)
                       (<[filter.(field) := []]> acc))
  end.

(** The reduction; an exception ends it. *)
Definition groupFrom (acc : option (gmap string (list FilterCondition)))
           (validFilters : list FilterCondition)
  : option (gmap string (list FilterCondition)) :=
  foldl (fun acc filter =>
           match acc with
           | Some o => groupStep o filter
           | None => None
           end) acc validFilters.

Definition filtersByField (validFilters : list FilterCondition)
  : option (gmap string (list FilterCondition)) :=
  groupFrom (Some ∅) validFilters.

(** [Object.values(o)] *)
Definition objectValues {A} (o : gmap string A) : list A := (map_to_list o).*2.

(** [applyFilters]: the filtered records, or [None] when the grouping
    throws. *)
Definition applyFilters (data : list JsValue) (filters : list FilterCondition)
  : option (list JsValue) :=
  let validFilters := List.filter hasValidFilterValue filters in
  if (length validFilters =? 0)%nat then Some data
  else
    match filtersByField validFilters with
    | None => None
    | Some byField =>
        Some (List.filter
                (fun record =>
                   forallb (fun fieldFilters =>
                              existsb (fun filter => applyFilter record filter) fieldFilters)
                           (objectValues byField))
                data)
    end.

End WithHost.
End FilterUtils.

(** ** components/DataTable: the comparator of [sortedData] *)

Module DataTable.
Import Js Types FilterUtils.

Section WithHost.
Context `{Host}.

(** The function handed to [Array.prototype.sort]. *)
Definition compareRows (sortConfig : SortConfig) (a b : JsValue) : number :=
  let aValue := getNestedValue a sortConfig.(key) in
  let bValue := getNestedValue b sortConfig.(key) in
  (* null/undefined values *)
  if isNullish aValue then num_of_Z 1
  else if isNullish bValue then num_of_Z (-1)
  else
    let comparison :=
      match aValue, bValue with
      | JStr x, JStr y => localeCompare x y
      | JNum x, JNum y => num_sub x y
      | JBool x, JBool y =>
          if Bool.eqb x y then num_of_Z 0 else if x then num_of_Z (-1) else num_of_Z 1
      | _, _ => localeCompare (toStr aValue) (toStr bValue)
      end in
    match sortConfig.(direction) with
    | asc => comparison
    | desc => num_neg comparison
    end.

End WithHost.
End DataTable.

(** ** A concrete host, to run the code on examples

    ASCII lower-casing, decimal literals for [parseFloat], ISO calendar dates
    ([YYYY-MM-DD], read as midnight UTC) and ISO dates with a time
    ([YYYY-MM-DDTHH:MM:SS], read as local time) for [Date], a zone five hours
    behind UTC, code-unit order for [localeCompare], and the standard
    methods of [Object.prototype] and [Array.prototype]. *)

Module SampleHost.
Import Js Types.

Definition lower_ascii (c : ascii) : ascii :=
  let n := N_of_ascii c in
  if ((65 <=? n) && (n <=? 90))%N then ascii_of_N (n + 32) else c.

Fixpoint lower (s : string) : string :=
  match s with
  | EmptyString => EmptyString
  | String c s' => String (lower_ascii c) (lower s')
  end.

Definition digit (c : ascii) : option Z :=
  let n := N_of_ascii c in
  if ((48 <=? n) && (n <=? 57))%N then Some (Z.of_N (n - 48)) else None.

(** The longest prefix of decimal digits: its value, its length, the rest. *)
Fixpoint leadingDigits (s : string) (acc : Z) (len : nat) : Z * nat * string :=
  match s with
  | EmptyString => (acc, len, s)
  | String c s' =>
      match digit c with
      | Some d => leadingDigits s' (acc * 10 + d)%Z (S len)
      | None => (acc, len, s)
      end
  end.

Definition parseUnsigned (s : string) : number :=
  let '(ip, il, rest) := leadingDigits s 0%Z 0%nat in
  let '(fp, fl) :=
    match rest with
    | String "."%char rest' =>
        let '(fp, fl, _) := leadingDigits rest' 0%Z 0%nat in (fp, fl)
    | _ => (0%Z, 0%nat)
    end in
  if ((il + fl)%nat =? 0)%nat then NaN
  else Fin (Qplus (inject_Z ip) (Qmake fp (Pos.pow 10 (Pos.of_nat fl)))).

Definition parseDecimal (s : string) : number :=
  match s with
  | String "-"%char s' => num_neg (parseUnsigned s')
  | String "+"%char s' => parseUnsigned s'
  | _ => parseUnsigned s
  end.

(** Days from 1970-01-01 to the civil date [y]-[m]-[d]. *)
Definition daysFromCivil (y m d : Z) : Z :=
  let y' := (if m <=? 2 then y - 1 else y)%Z in
  let era := (y' `div` 400)%Z in
  let yoe := (y' - era * 400)%Z in
  let mp := (if m <=? 2 then m + 9 else m - 3)%Z in
  let doy := ((153 * mp + 2) `div` 5 + d - 1)%Z in
  let doe := (yoe * 365 + yoe `div` 4 - yoe `div` 100 + doy)%Z in
  (era * 146097 + doe - 719468)%Z.

Definition isoDate (s : string) : option Z :=
  match s with
  | String y1 (String y2 (String y3 (String y4 (String "-"
      (String m1 (String m2 (String "-" (String d1 (String d2 EmptyString))))))))) =>
      match digit y1, digit y2, digit y3, digit y4, digit m1, digit m2, digit d1, digit d2 with
      | Some a, Some b, Some c, Some d, Some e, Some f, Some g, Some h =>
          let y := (((a * 10 + b) * 10 + c) * 10 + d)%Z in
          let m := (e * 10 + f)%Z in
          let dd := (g * 10 + h)%Z in
          if ((1 <=? m) && (m <=? 12) && (1 <=? dd) && (dd <=? 31))%Z
          then Some (daysFromCivil y m dd * msPerDay)%Z
          else None
      | _, _, _, _, _, _, _, _ => None
      end
  | _ => None
  end.

Definition codeUnitCompare (a b : string) : number :=
  match String.compare a b with
  | Lt => num_of_Z (-1)
  | Eq => num_of_Z 0
  | Gt => num_of_Z 1
  end.

Definition show (v : JsValue) : string :=
  match v with
  | JUndefined => "undefined"
  | JNull => "null"
  | JBool true => "true"
  | JBool false => "false"
  | JNum _ => "0"
  | JStr s => s
  | JArr l => String.concat "," (items l)
  | JObj _ => "[object Object]"
  | JFunction name => ("function " ++ name ++ "() { [native code] }")%string
  end.

(** The zone of the sample host: five hours behind UTC. *)
Definition sampleOffset : Z := (-18000000)%Z.

(** [YYYY-MM-DDTHH:MM:SS], a date and time without zone, read as local
    time. *)
Definition isoLocalDateTime (s : string) : option Z :=
  match isoDate (String.substring 0 10 s), String.substring 10 9 s with
  | Some day,
    String "T" (String h1 (String h2 (String ":"
      (String m1 (String m2 (String ":" (String s1 (String s2 EmptyString)))))))) =>
      match digit h1, digit h2, digit m1, digit m2, digit s1, digit s2 with
      | Some a, Some b, Some c, Some d, Some e, Some f =>
          let hh := (a * 10 + b)%Z in
          let mm := (c * 10 + d)%Z in
          let ss := (e * 10 + f)%Z in
          if ((hh <=? 23) && (mm <=? 59) && (ss <=? 59))%Z
          then Some (day + ((hh * 60 + mm) * 60 + ss) * 1000 - sampleOffset)%Z
          else None
      | _, _, _, _, _, _ => None
      end
  | _, _ => None
  end.

Definition sampleDate (s : string) : option Z :=
  match isoDate s with
  | Some t => Some t
  | None => isoLocalDateTime s
  end.

(** The methods of [Object.prototype]. *)
Definition sampleObjectMethods : list string :=
  ["constructor"; "hasOwnProperty"; "isPrototypeOf"; "propertyIsEnumerable";
   "toLocaleString"; "toString"; "valueOf";
   "__defineGetter__"; "__defineSetter__"; "__lookupGetter__"; "__lookupSetter__"].

(** The methods of [Array.prototype], and behind them those of
    [Object.prototype]. *)
Definition sampleArrayMethods : list string :=
  ["at"; "concat"; "copyWithin"; "entries"; "every"; "fill"; "filter"; "find";
   "findIndex"; "findLast"; "findLastIndex"; "flat"; "flatMap"; "forEach";
   "includes"; "indexOf"; "join"; "keys"; "lastIndexOf"; "map"; "pop"; "push";
   "reduce"; "reduceRight"; "reverse"; "shift"; "slice"; "some"; "sort";
   "splice"; "toReversed"; "toSorted"; "toSpliced"; "unshift"; "values"; "with"]
  ++ sampleObjectMethods.

#[export] Instance sample : Host := {|
  toLowerCase := lower;
  parseFloat := parseDecimal;
  dateParse := sampleDate;
  localOffset := sampleOffset;
  localeCompare := codeUnitCompare;
  toStr := show;
  objectPrototypeKeys := sampleObjectMethods;
  arrayPrototypeKeys := sampleArrayMethods
|}.

(** Literals for the examples. *)
Definition num (z : Z) : JsValue := JNum (num_of_Z z).

Definition obj (props : list (string * JsValue)) : JsValue :=
  JObj (list_to_map props).

Definition cond (f : string) (op : FilterOperator) (v : FilterValue) : FilterCondition :=
  {| id := f; field := f; operator := op; value := v |}.

(** Sample data. *)
Definition young : JsValue := obj [("age", num 20); ("dept", JStr "x")].
Definition senior : JsValue := obj [("age", num 40); ("dept", JStr "y")].

(** Three conditions, each empty in its own way. *)
Definition allInvalid : list FilterCondition :=
  [ cond "name" OpContains (VStr EmptyString);
    cond "skills" OpIn (VArr []);
    cond "salary" OpBetween (VRange {| min := BNull; max := BStr EmptyString |}) ].

End SampleHost.

(** ** The vocabulary of the specification

    These definitions follow the wording of the specification, not the code;
    the theorems below compare the two. *)

Module Spec.
Import Js Types FilterUtils.

Section WithHost.
Context `{Host}.

(** The conditions that pass the validity filter. *)
Definition validConditions (cs : list FilterCondition) : list FilterCondition :=
  List.filter hasValidFilterValue cs.

(** The field group of key [f]: the valid conditions on field [f], in their
    original order. *)
Definition fieldGroup (cs : list FilterCondition) (f : string) : list FilterCondition :=
  List.filter (fun c => bool_decide (c.(field) = f)) (validConditions cs).

(** OR within a field group, AND across the field groups. *)
Definition keeps (cs : list FilterCondition) (record : JsValue) : Prop :=
  forall f : string,
    fieldGroup cs f <> [] ->
    exists c, In c (fieldGroup cs f) /\ applyFilter record c = true.

(** A bound that is null or the empty string. *)
Definition emptyBound (b : Bound) : bool :=
  match b with
  | BNull => true
  | BStr s => str_eq s EmptyString
  | BNum _ => false
  end.

(** A date bound that is null or the empty string. *)
Definition emptyDate (o : option string) : bool :=
  match o with
  | None => true
  | Some s => str_eq s EmptyString
  end.

(** The values the validity rule of the specification calls empty:
    null/undefined, the empty string, the empty sequence, a range or a date
    range with both bounds null/empty. *)
Definition emptyValue (v : FilterValue) : bool :=
  match v with
  | VNull | VUndefined => true
  | VStr s => str_eq s EmptyString
  | VArr l => match l with [] => true | _ => false end
  | VRange r => emptyBound r.(min) && emptyBound r.(max)
  | VDateRange d => emptyDate d.(startDate) && emptyDate d.(endDate)
  | VNum _ | VBool _ => false
  end.

(** A range or date-range record with at least one bound that is neither
    null nor empty. *)
Definition boundedRange (v : FilterValue) : bool :=
  match v with
  | VRange r => negb (emptyBound r.(min) && emptyBound r.(max))
  | VDateRange d => negb (emptyDate d.(startDate) && emptyDate d.(endDate))
  | _ => false
  end.

(** The runtime shapes the evaluator dispatches on. *)
Inductive Shape : Type :=
| ShString | ShNumber | ShBoolean | ShSequence | ShRange | ShDateRange | ShOther.

Definition recordShape (v : JsValue) : Shape :=
  match v with
  | JStr _ => ShString
  | JNum _ => ShNumber
  | JBool _ => ShBoolean
  | JArr _ => ShSequence
  | JObj _ | JNull | JUndefined | JFunction _ => ShOther
  end.

Definition conditionShape (v : FilterValue) : Shape :=
  match v with
  | VStr _ => ShString
  | VNum _ => ShNumber
  | VBool _ => ShBoolean
  | VArr _ => ShSequence
  | VRange _ => ShRange
  | VDateRange _ => ShDateRange
  | VNull | VUndefined => ShOther
  end.

(** The dispatch rules of the evaluator: string/string, number/number,
    number with [between] and a range, string with [between] and a date
    range, sequence/sequence, boolean/boolean. *)
Definition dispatchRule (rs cs : Shape) (op : FilterOperator) : bool :=
  match rs, cs with
  | ShString, ShString => true
  | ShNumber, ShNumber => true
  | ShNumber, ShRange => bool_decide (op = OpBetween)
  | ShString, ShDateRange => bool_decide (op = OpBetween)
  | ShSequence, ShSequence => true
  | ShBoolean, ShBoolean => true
  | _, _ => false
  end.

(** A record value occurs in a sequence up to letter case. *)
Definition sameIgnoringCase (a b : string) : Prop :=
  toLowerCase a = toLowerCase b.

Definition appearsIn (x : string) (xs : list string) : Prop :=
  exists v, In v xs /\ sameIgnoringCase x v.

(** The number a range bound enforces: none when the bound is null, empty,
    or does not parse as a number. *)
Definition enforcedBound (b : Bound) : option number :=
  match b with
  | BNull => None
  | BStr s =>
      if str_eq s EmptyString then None
      else if isNaN (parseFloat s) then None else Some (parseFloat s)
  | BNum n => if isNaN n then None else Some n
  end.

(** The last millisecond of the local calendar day that holds the instant
    [t]: 23:59:59.999 local time. *)
Definition endOfLocalDay (t : Z) : Z :=
  ((t + localOffset) `div` msPerDay * msPerDay + 86399999 - localOffset)%Z.

(** Local calendar day, and local time of day, of an instant. *)
Definition localDay (t : Z) : Z := ((t + localOffset) `div` msPerDay)%Z.
Definition localTimeOfDay (t : Z) : Z := ((t + localOffset) `mod` msPerDay)%Z.

(** The value of a record at a key is absent: the path resolves to
    [undefined]. *)
Definition absentAt (record : JsValue) (path : string) : Prop :=
  getNestedValue record path = JUndefined.

(** The claims that fail on the code, as the specification words them. *)

(** The validity filter discards exactly the empty values, whatever the
    operator. *)
Definition validity_ignores_operator : Prop :=
  forall c : FilterCondition,
    hasValidFilterValue c = false <-> emptyValue c.(value) = true.

(** Any present value that no dispatch rule covers matches. *)
Definition present_value_fails_open : Prop :=
  forall (record : JsValue) (c : FilterCondition),
    ~ absentAt record c.(field) ->
    dispatchRule (recordShape (getNestedValue record c.(field)))
                 (conditionShape c.(value)) c.(operator) = false ->
    applyFilter record c = true.

(** The values the identity property calls invalid: the empty string, the
    empty sequence, a range (of amounts or of dates) with both bounds
    null/empty. *)
Definition emptyByRule (v : FilterValue) : bool :=
  match v with
  | VStr s => str_eq s EmptyString
  | VArr l => match l with [] => true | _ => false end
  | VRange r => emptyBound r.(min) && emptyBound r.(max)
  | VDateRange d => emptyDate d.(startDate) && emptyDate d.(endDate)
  | _ => false
  end.

(** The value of a condition is a range, of amounts or of dates. *)
Definition isRange (v : FilterValue) : bool :=
  match v with
  | VRange _ | VDateRange _ => true
  | _ => false
  end.

(** Conditions that are all invalid by these rules leave the records as
    they are. *)
Definition identity_on_empty_values : Prop :=
  forall (data : list JsValue) (cs : list FilterCondition),
    Forall (fun c => emptyByRule c.(value) = true) cs ->
    applyFilters data cs = Some data.


(** A level of a record lacks a key: it is not a keyed structure, or it is
    an object without that property, or an array without that index. *)
Definition lacksKey (current : JsValue) (k : string) : Prop :=
  match current with
  | JObj m => m !! k = None
  | JArr a =>
      str_eq k "length" = false /\
      forall i, arrayIndex k = Some i -> nth_error (items a) (N.to_nat i) = None
  | _ => True
  end.

End WithHost.
End Spec.

(** ** The checks of the range evaluators, one bound at a time

    [filterAmountRange] and [filterDateRange] run the same test on each of
    their two bounds; the tests are named here so that the proofs can treat
    the bounds separately. *)

Module Checks.
Import Js Types FilterUtils.

Section WithHost.
Context `{Host}.

(** The test the code runs on one bound, given the comparison that rejects. *)
Definition boundRejects (rejects : number -> bool) (b : Bound) : bool :=
  negb (isNullBound b) && negb (isEmptyBound b) &&
  match b with
  | BStr s => negb (isNaN (parseFloat s)) && rejects (parseFloat s)
  | BNum n => negb (isNaN n) && rejects n
  | BNull => false
  end.

(** The start check of [filterDateRange] rejects. *)
Definition startRejects (date : Date) (s : option string) : bool :=
  match s with
  | Some sv => truthy s && date_lt date (newDate sv)
  | None => false
  end.

(** The end check of [filterDateRange] rejects. *)
Definition endRejects (date : Date) (e : option string) : bool :=
  match e with
  | Some ev => truthy e && date_gt date (setHours 23 59 59 999 (newDate ev))
  | None => false
  end.

End WithHost.
End Checks.

(** ** types/index.ts: field definitions *)

Module Fields.
Import Js Types.

Inductive FieldType : Type :=
| FText | FNumber | FDate | FAmount | FSingleSelect | FMultiSelect | FBoolean.

#[global] Instance FieldType_eq_dec : EqDecision FieldType.
Proof. solve_decision. Defined.

Definition OPERATOR_LABELS (op : FilterOperator) : string :=
  match op with
  | OpEquals => "Equals"
  | OpContains => "Contains"
  | OpStartsWith => "Starts With"
  | OpEndsWith => "Ends With"
  | OpDoesNotContain => "Does Not Contain"
  | OpGreaterThan => "Greater Than"
  | OpLessThan => "Less Than"
  | OpGreaterThanOrEqual => "Greater Than or Equal"
  | OpLessThanOrEqual => "Less Than or Equal"
  | OpBetween => "Between"
  | OpIs => "Is"
  | OpIsNot => "Is Not"
  | OpIn => "In"
  | OpNotIn => "Not In"
  end.

Definition OPERATORS_BY_TYPE (t : FieldType) : list FilterOperator :=
  match t with
  | FText => [OpEquals; OpContains; OpStartsWith; OpEndsWith; OpDoesNotContain]
  | FNumber => [OpEquals; OpGreaterThan; OpLessThan; OpGreaterThanOrEqual; OpLessThanOrEqual]
  | FDate => [OpBetween]
  | FAmount => [OpBetween]
  | FSingleSelect => [OpIs; OpIsNot]
  | FMultiSelect => [OpIn; OpNotIn]
  | FBoolean => [OpIs]
  end.

Module SelectOption.
Record t : Type := { value : string; label : string }.
End SelectOption.

Record FieldDefinition : Type :=
  { key : string;
    label : string;
    type : FieldType;
    options : option (list SelectOption.t) }.

End Fields.

(** [Partial<FilterCondition>]: each property present or not. *)

Module Partial.
Import Js Types.

Record Condition : Type :=
  { id : option string;
    field : option string;
    operator : option FilterOperator;
    value : option FilterValue }.

(** [{ ...f, ...updates }] *)
Definition spread (f : FilterCondition) (updates : Condition) : FilterCondition :=
  {| Types.id := default f.(Types.id) updates.(id);
     Types.field := default f.(Types.field) updates.(field);
     Types.operator := default f.(Types.operator) updates.(operator);
     Types.value := default f.(Types.value) updates.(value) |}.

End Partial.

(** ** components/FilterBuilder/FilterBuilder.tsx *)

Module FilterBuilder.
Import Js Types.

(** The operator of a new filter, by the type of the first field. *)
Definition newOperator (t : Fields.FieldType) : FilterOperator :=
  match t with
  | Fields.FText => OpContains
  | Fields.FNumber => OpEquals
  | Fields.FDate => OpBetween
  | Fields.FAmount => OpBetween
  | Fields.FSingleSelect => OpIs
  | Fields.FMultiSelect => OpIn
  | _ => OpIs
  end.

(** The value of a new filter, by the type of the first field. *)
Definition newValue (t : Fields.FieldType) : FilterValue :=
  match t with
  | Fields.FDate => VDateRange {| startDate := None; endDate := None |}
  | Fields.FAmount => VRange {| min := BNull; max := BNull |}
  | Fields.FMultiSelect => VArr []
  | Fields.FBoolean => VBool true
  | _ => VStr EmptyString
  end.

(** [handleAddFilter]: the list handed to [onFiltersChange].  The identifier
    comes from [generateFilterId] (clock and random generator) and is an
    argument here.  With no field at all, reading [defaultField.key] throws:
    [None]. *)
Definition handleAddFilter (newId : string) (fields : list Fields.FieldDefinition)
           (filters : list FilterCondition) : option (list FilterCondition) :=
  match fields with
  | [] => None
  | defaultField :: _ =>
      let newFilter :=
        {| id := newId;
           field := defaultField.(Fields.key);
           operator := newOperator defaultField.(Fields.type);
           value := newValue defaultField.(Fields.type) |} in
      Some (filters ++ [newFilter])
  end.

(** [handleUpdateFilter] *)
Definition handleUpdateFilter (filterId : string) (updates : Partial.Condition)
           (filters : list FilterCondition) : list FilterCondition :=
  map (fun f => if str_eq f.(id) filterId then Partial.spread f updates else f) filters.

(** [handleRemoveFilter] *)
Definition handleRemoveFilter (filterId : string)
           (filters : list FilterCondition) : list FilterCondition :=
  List.filter (fun f => negb (str_eq f.(id) filterId)) filters.

(** [handleClearAll] *)
Definition handleClearAll : list FilterCondition := [].

End FilterBuilder.

(** ** components/FilterBuilder/FilterRow.tsx *)

Module FilterRow.
Import Js Types.

(** [fields.find((f) => f.key === k)] *)
Definition findField (fields : list Fields.FieldDefinition) (k : string)
  : option Fields.FieldDefinition :=
  List.find (fun f => str_eq f.(Fields.key) k) fields.

Definition currentField (fields : list Fields.FieldDefinition) (filter : FilterCondition)
  : option Fields.FieldDefinition :=
  findField fields filter.(field).

Definition availableOperators (fields : list Fields.FieldDefinition)
           (filter : FilterCondition) : list FilterOperator :=
  match currentField fields filter with
  | None => []
  | Some f => Fields.OPERATORS_BY_TYPE f.(Fields.type)
  end.

(** The default value of [handleFieldChange], by field type. *)
Definition defaultValue (t : Fields.FieldType) : FilterValue :=
  match t with
  | Fields.FDate => VDateRange {| startDate := None; endDate := None |}
  | Fields.FAmount => VRange {| min := BNull; max := BNull |}
  | Fields.FMultiSelect => VArr []
  | Fields.FBoolean => VBool true
  | _ => VStr EmptyString
  end.

(** [handleFieldChange]: the arguments of the call to [onUpdate], or [None]
    when the key names no field and nothing is called.  The operator is
    [newOperators[0]]. *)
Definition handleFieldChange (fields : list Fields.FieldDefinition)
           (filter : FilterCondition) (newFieldKey : string)
  : option (string * Partial.Condition) :=
  match findField fields newFieldKey with
  | Some newField =>
      let newOperators := Fields.OPERATORS_BY_TYPE newField.(Fields.type) in
      let defaultOperator := head newOperators in
      Some (filter.(id),
            {| Partial.id := None;
               Partial.field := Some newFieldKey;
               Partial.operator := defaultOperator;
               Partial.value := Some (defaultValue newField.(Fields.type)) |})
  | None => None
  end.

(** [handleOperatorChange] *)
Definition handleOperatorChange (filter : FilterCondition) (op : FilterOperator)
  : string * Partial.Condition :=
  (filter.(id),
   {| Partial.id := None; Partial.field := None;
      Partial.operator := Some op; Partial.value := None |}).

(** [handleValueChange] *)
Definition handleValueChange (filter : FilterCondition) (newValue : FilterValue)
  : string * Partial.Condition :=
  (filter.(id),
   {| Partial.id := None; Partial.field := None;
      Partial.operator := None; Partial.value := Some newValue |}).

End FilterRow.

(** ** components/FilterInputs: the change handlers *)

Module FilterInputs.
Import Js Types.

Section WithNumber.
(** [Number(s)] *)
Variable toNumber : string -> number.

(** [NumberInput.handleChange]: the value handed to [onChange], or [None]
    when [onChange] is not called. *)
Definition numberHandleChange (inputValue : string) : option FilterValue :=
  if str_eq inputValue EmptyString then Some (VStr EmptyString)
  else if negb (isNaN (toNumber inputValue)) then Some (VNum (toNumber inputValue))
  else None.

(** [AmountRangeInput.handleMinChange] *)
Definition amountHandleMinChange (value : RangeValue) (inputValue : string) : RangeValue :=
  {| min := if str_eq inputValue EmptyString then BNull else BNum (toNumber inputValue);
     max := value.(max) |}.

(** [AmountRangeInput.handleMaxChange] *)
Definition amountHandleMaxChange (value : RangeValue) (inputValue : string) : RangeValue :=
  {| min := value.(min);
     max := if str_eq inputValue EmptyString then BNull else BNum (toNumber inputValue) |}.

End WithNumber.

(** [s || null] *)
Definition orNull (s : string) : option string :=
  if str_eq s EmptyString then None else Some s.

(** [DateRangeInput.handleStartDateChange] *)
Definition dateHandleStartDateChange (value : DateRangeValue) (inputValue : string)
  : DateRangeValue :=
  {| startDate := orNull inputValue; endDate := value.(endDate) |}.

(** [DateRangeInput.handleEndDateChange] *)
Definition dateHandleEndDateChange (value : DateRangeValue) (inputValue : string)
  : DateRangeValue :=
  {| startDate := value.(startDate); endDate := orNull inputValue |}.

End FilterInputs.

(** ** components/DataTable: the sort request *)

Module DataTableSort.
Import Js Types.

(** [handleSort]: the configuration handed to [setSortConfig]. *)
Definition handleSort (sortConfig : option SortConfig) (columnKey : string) : SortConfig :=
  let direction :=
    match sortConfig with
    | Some c =>
        if str_eq c.(key) columnKey &&
           match c.(direction) with asc => true | desc => false end
        then desc else asc
    | None => asc
    end in
  {| key := columnKey; direction := direction |}.

End DataTableSort.

(** ** The predicate of the final [data.filter] *)

Module EngineAux.
Import Js Types FilterUtils Spec.

Section WithHost.
Context `{Host}.

(** What [applyFilters] asks of one record once the conditions are grouped
    in [byField]. *)
Definition groupsPass (byField : gmap string (list FilterCondition))
           (record : JsValue) : bool :=
  forallb (fun fieldFilters => existsb (fun filter => applyFilter record filter) fieldFilters)
          (objectValues byField).

(** The same, read off the conditions: every valid condition has, in the
    group of its field, a condition that evaluates true. *)
Definition passes (cs : list FilterCondition) (record : JsValue) : bool :=
  forallb (fun c => existsb (fun c' => applyFilter record c') (fieldGroup cs c.(field)))
          (validConditions cs).

(** A valid condition is on a field named like a member that a plain
    object inherits. *)
Definition throwsOn (cs : list FilterCondition) : bool :=
  existsb (fun c => inheritedByObject c.(field)) (validConditions cs).

End WithHost.
End EngineAux.

(** ** Sample fields and rows *)

Module SampleData.
Import Js Types SampleHost.

Definition nameField : Fields.FieldDefinition :=
  {| Fields.key := "name"; Fields.label := "Name";
     Fields.type := Fields.FText; Fields.options := None |}.

Definition salaryField : Fields.FieldDefinition :=
  {| Fields.key := "salary"; Fields.label := "Salary";
     Fields.type := Fields.FAmount; Fields.options := None |}.

Definition activeField : Fields.FieldDefinition :=
  {| Fields.key := "isActive"; Fields.label := "Status";
     Fields.type := Fields.FBoolean; Fields.options := None |}.

Definition ann : JsValue :=
  obj [("name", JStr "Ann"); ("salary", num 120); ("joinDate", JStr "2024-03-15");
       ("skills", JArr (ArrayOf ["go"; "rust"])); ("address", obj [("city", JStr "Pune")])].

Definition bob : JsValue :=
  obj [("name", JStr "Bob"); ("salary", num 80); ("joinDate", JStr "not a date")].

Definition nameContainsAn : FilterCondition :=
  {| id := "f1"; field := "name"; operator := OpContains; value := VStr "an" |}.

Definition nameEqualsBob : FilterCondition :=
  {| id := "f2"; field := "name"; operator := OpEquals; value := VStr "bob" |}.

Definition salaryAbove100 : FilterCondition :=
  {| id := "f3"; field := "salary"; operator := OpGreaterThan;
     value := VNum (num_of_Z 100) |}.

Definition cityIsNot : FilterCondition :=
  {| id := "f4"; field := "address.city"; operator := OpIsNot; value := VStr "Oslo" |}.

Definition emptyName : FilterCondition :=
  {| id := "f5"; field := "name"; operator := OpContains; value := VStr EmptyString |}.

End SampleData.

(** ** Properties of the condition evaluator *)

Module EvaluatorProps.
Import Js Types FilterUtils Spec Checks.

Section WithHost.
Context `{Host}.

Lemma str_eq_true (a b : string) : str_eq a b = true <-> a = b.
Proof. unfold str_eq. apply String.eqb_eq. Qed.

Lemma str_eq_false (a b : string) : str_eq a b = false <-> a <> b.
Proof. unfold str_eq. apply String.eqb_neq. Qed.

(** The evaluator answers from the resolved value alone once that value is
    null or undefined. *)
Lemma applyFilter_nullish (record : JsValue) (c : FilterCondition) :
  isNullish (getNestedValue record c.(field)) = true ->
  applyFilter record c = false.
Proof. intros Hn. unfold applyFilter. now rewrite Hn. Qed.

(** *** Absent paths *)

(** Once a level of the walk is undefined, so is the result. *)
Lemma resolve_from_undefined (ks : list string) :
  foldl getProperty JUndefined ks = JUndefined.
Proof. induction ks as [|k ks IH]; simpl; [reflexivity | exact IH]. Qed.

(** A level that is not a keyed structure yields undefined. *)
Lemma getProperty_not_keyed (current : JsValue) (k : string) :
  (forall m, current <> JObj m) -> (forall l, current <> JArr l) ->
  getProperty current k = JUndefined.
Proof.
  intros Hobj Harr. destruct current as [| | | | |l|m|name]; try reflexivity.
  - now contradiction (Harr l).
  - now contradiction (Hobj m).
Qed.

(** An object that neither has nor inherits the key yields undefined. *)
Lemma getProperty_missing_key (m : gmap string JsValue) (k : string) :
  m !! k = None -> inheritedByObject k = false ->
  getProperty (JObj m) k = JUndefined.
Proof.
  intros Hk Hinh. apply orb_false_iff in Hinh as [Hproto Hmethod].
  simpl. now rewrite Hk, Hproto, Hmethod.
Qed.

(** An object that lacks the key but inherits it yields the inherited
    member, which is neither undefined nor null. *)
Lemma getProperty_inherited (m : gmap string JsValue) (k : string) :
  m !! k = None -> inheritedByObject k = true ->
  getProperty (JObj m) k = (if str_eq k "__proto__" then objectPrototype else JFunction k).
Proof.
  intros Hk Hinh. simpl. rewrite Hk.
  destruct (str_eq k "__proto__") eqn:Ep; [reflexivity |].
  simpl in Hinh. unfold inheritedByObject in Hinh. rewrite Ep in Hinh.
  simpl in Hinh. now rewrite Hinh.
Qed.

(** A path is absent as soon as one of its levels yields undefined. *)
Lemma absent_from_level (record : JsValue) (path : string)
      (ks1 : list string) (k : string) (ks2 : list string) :
  split_dot path = ks1 ++ k :: ks2 ->
  getProperty (foldl getProperty record ks1) k = JUndefined ->
  absentAt record path.
Proof.
  intros Hsplit Hlevel. unfold absentAt, getNestedValue.
  rewrite Hsplit, foldl_app. simpl. rewrite Hlevel.
  apply resolve_from_undefined.
Qed.

(** A path that resolves to undefined fails every condition on it. *)
Lemma undefined_path_fails (record : JsValue) (c : FilterCondition) :
  absentAt record c.(field) ->
  applyFilter record c = false.
Proof.
  unfold absentAt. intros Habs.
  apply applyFilter_nullish. now rewrite Habs.
Qed.

(** C5, on the code: when the last level of the field path is an object
    that lacks the key, and the key names a method that every object
    inherits, the path is not absent: it resolves to the inherited method,
    and the condition evaluates to true, whatever its operator and value. *)
Theorem C5_inherited_key_matches (record : JsValue) (c : FilterCondition)
        (ks : list string) (k : string) (m : gmap string JsValue) :
  split_dot c.(field) = ks ++ [k] ->
  foldl getProperty record ks = JObj m ->
  lacksKey (JObj m) k ->
  isMethod objectPrototypeKeys k = true ->
  ~ absentAt record c.(field) /\ applyFilter record c = true.
Proof.
  intros Hsplit Hlevel Hlacks Hmethod. simpl in Hlacks.
  assert (Hinh : inheritedByObject k = true).
  { unfold inheritedByObject. rewrite Hmethod. apply orb_true_r. }
  assert (Hres : getNestedValue record c.(field)
                 = (if str_eq k "__proto__" then objectPrototype else JFunction k)).
  { unfold getNestedValue. rewrite Hsplit, foldl_app, Hlevel. simpl foldl.
    now apply getProperty_inherited. }
  split.
  - unfold absentAt. rewrite Hres. unfold objectPrototype.
    destruct (str_eq k "__proto__"); discriminate.
  - unfold applyFilter. rewrite Hres. unfold objectPrototype.
    destruct (str_eq k "__proto__"); simpl; now destruct c.(value).
Qed.

(** C10: when the field path resolves to a present but null value, the
    condition evaluates to false, for every operator and condition value;
    the fail-open default is never reached. *)
Theorem C10_null_value_fails (record : JsValue) (c : FilterCondition) :
  getNestedValue record c.(field) = JNull ->
  applyFilter record c = false.
Proof.
  intros Hnull. apply applyFilter_nullish. now rewrite Hnull.
Qed.

(** C4 (amended): when the field path resolves to a value that is neither
    absent nor null and no dispatch rule covers the pair of shapes and the
    operator, the evaluator returns true. *)
Theorem C4_fail_open_non_null (record : JsValue) (c : FilterCondition) :
  isNullish (getNestedValue record c.(field)) = false ->
  dispatchRule (recordShape (getNestedValue record c.(field)))
               (conditionShape c.(value)) c.(operator) = false ->
  applyFilter record c = true.
Proof.
  intros Hpresent Hrule. unfold applyFilter. rewrite Hpresent.
  destruct (getNestedValue record c.(field)) eqn:Efv;
    destruct c.(value) eqn:Ev; simpl in Hrule; try discriminate; try reflexivity;
    now rewrite Hrule.
Qed.

(** *** Multi-select *)

Lemma arr_includes_true (xs : list string) (x : string) :
  arr_includes xs x = true <-> In x xs.
Proof.
  unfold arr_includes. rewrite existsb_exists. split.
  - intros (y & Hy & Heq). apply str_eq_true in Heq. now subst.
  - intros Hx. exists x. split; [assumption | now apply str_eq_true].
Qed.

Lemma some_lower_appears (value filterValues : list string) :
  existsb (fun filter => arr_includes (map toLowerCase value) filter)
          (map toLowerCase filterValues) = true
  <-> exists x, In x filterValues /\ appearsIn x value.
Proof.
  rewrite existsb_exists. split.
  - intros (lf & Hlf & Hinc).
    apply in_map_iff in Hlf as (x & <- & Hx).
    apply arr_includes_true, in_map_iff in Hinc as (v & Hv & Hin).
    exists x. split; [assumption |]. exists v. split; [assumption |].
    unfold sameIgnoringCase. congruence.
  - intros (x & Hx & v & Hv & Hsame).
    exists (toLowerCase x). split; [now apply in_map |].
    apply arr_includes_true. rewrite Hsame. now apply in_map.
Qed.

(** C6: on a record sequence of strings, an empty condition sequence
    matches under every operator; a non-empty one matches under [in] iff
    some condition value appears, up to case, in the record sequence, and
    under [notIn] iff none does, the negation of [in]. *)
Theorem C6_multiSelect (value : list string) (f : string) (fs : list string) :
  (forall op, filterMultiSelect value [] op = true) /\
  (filterMultiSelect value (f :: fs) OpIn = true
     <-> exists x, In x (f :: fs) /\ appearsIn x value) /\
  (filterMultiSelect value (f :: fs) OpNotIn = true
     <-> ~ exists x, In x (f :: fs) /\ appearsIn x value) /\
  filterMultiSelect value (f :: fs) OpNotIn
    = negb (filterMultiSelect value (f :: fs) OpIn).
Proof.
  split; [reflexivity |].
  pose proof (some_lower_appears value (f :: fs)) as Hsome.
  unfold filterMultiSelect. cbn [length Nat.eqb].
  split; [exact Hsome |]. split; [| reflexivity].
  rewrite <- Hsome.
  destruct (existsb _ _); simpl; split; intros Hx; try discriminate;
    try reflexivity; try (intros Hy; discriminate); now contradict Hx.
Qed.

(** *** Amount range *)



Lemma boundRejects_enforced (rejects : number -> bool) (b : Bound) :
  boundRejects rejects b = false <->
  (forall m, enforcedBound b = Some m -> rejects m = false).
Proof.
  unfold boundRejects. destruct b as [|s|n]; simpl.
  - split; [intros _ m; discriminate | reflexivity].
  - destruct (str_eq s EmptyString); simpl; [split; [intros _ m; discriminate | reflexivity] |].
    destruct (isNaN (parseFloat s)); simpl;
      [split; [intros _ m; discriminate | reflexivity] |].
    split; [intros Hr m [= <-]; exact Hr | intros Hm; now apply Hm].
  - destruct (isNaN n); simpl; [split; [intros _ m; discriminate | reflexivity] |].
    split; [intros Hr m [= <-]; exact Hr | intros Hm; now apply Hm].
Qed.

Lemma filterAmountRange_checks (v : number) (mn mx : Bound) :
  filterAmountRange v {| min := mn; max := mx |}
  = negb (boundRejects (num_lt v) mn) && negb (boundRejects (num_gt v) mx).
Proof.
  unfold filterAmountRange, boundRejects.
  destruct mn as [|s|n], mx as [|s'|n']; simpl; try reflexivity;
    repeat match goal with
           | |- context [str_eq ?a EmptyString] => destruct (str_eq a EmptyString); simpl
           | |- context [if ?b then _ else _] => destruct b; simpl
           end; try reflexivity;
    repeat match goal with
           | |- context [negb (isNaN ?a)] => destruct (isNaN a); simpl
           | |- context [num_lt ?a ?b] => destruct (num_lt a b); simpl
           | |- context [num_gt ?a ?b] => destruct (num_gt a b); simpl
           end; reflexivity.
Qed.


(** *** Date range *)

Lemma truthy_Some (s : string) : truthy (Some s) = true <-> s <> EmptyString.
Proof.
  simpl. rewrite negb_true_iff. apply str_eq_false.
Qed.

Lemma endOfLocalDay_same_day (t : Z) :
  (t <= endOfLocalDay t)%Z /\
  localDay (endOfLocalDay t) = localDay t /\
  localTimeOfDay (endOfLocalDay t) = 86399999%Z.
Proof.
  unfold endOfLocalDay, localDay, localTimeOfDay, msPerDay.
  repeat split; Z.div_mod_to_equations; lia.
Qed.

(** An instant is at or before the end of a day iff its own day is not a
    later one. *)
Lemma le_endOfLocalDay (t te : Z) :
  (t <= endOfLocalDay te)%Z <-> (localDay t <= localDay te)%Z.
Proof.
  unfold endOfLocalDay, localDay, msPerDay.
  split; intros Hle; Z.div_mod_to_equations; lia.
Qed.

Lemma setHours_end_of_day (t : Z) :
  setHours 23 59 59 999 (Some t) = Some (endOfLocalDay t).
Proof. unfold setHours, endOfLocalDay. f_equal. Qed.

Lemma filterDateRange_checks (value : string) (s e : option string) :
  filterDateRange value {| startDate := s; endDate := e |}
  = negb (startRejects (newDate value) s) && negb (endRejects (newDate value) e).
Proof.
  unfold filterDateRange, startRejects, endRejects.
  destruct s as [sv|], e as [ev|]; simpl;
    repeat match goal with
           | |- context [str_eq ?a EmptyString] => destruct (str_eq a EmptyString); simpl
           end; try reflexivity;
    repeat match goal with
           | |- context [date_lt ?a ?b] => destruct (date_lt a b); simpl
           | |- context [date_gt ?a ?b] => destruct (date_gt a b); simpl
           end; reflexivity.
Qed.

Lemma startRejects_false (tv : Z) (s : option string) :
  startRejects (Some tv) s = false <->
  (forall sv ts, s = Some sv -> sv <> EmptyString -> dateParse sv = Some ts -> (ts <= tv)%Z).
Proof.
  unfold startRejects, newDate. destruct s as [sv|].
  - destruct (truthy (Some sv)) eqn:Et; simpl.
    + apply truthy_Some in Et. destruct (dateParse sv) as [ts|] eqn:Ep; simpl.
      * rewrite Z.ltb_ge. split.
        -- intros Hle sv' ts' [= <-] _ Hp. rewrite Ep in Hp. injection Hp as <-. exact Hle.
        -- intros Hall. now apply (Hall sv ts).
      * split; [| reflexivity]. intros _ sv' ts' [= <-] _ Hp. congruence.
    + split; [| reflexivity]. intros _ sv' ts' [= <-] Hne.
      apply truthy_Some in Hne. congruence.
  - split; [intros _ sv ts; discriminate | reflexivity].
Qed.

Lemma endRejects_false (tv : Z) (e : option string) :
  endRejects (Some tv) e = false <->
  (forall ev te, e = Some ev -> ev <> EmptyString -> dateParse ev = Some te ->
                 (tv <= endOfLocalDay te)%Z).
Proof.
  unfold endRejects, newDate, date_gt. destruct e as [ev|].
  - destruct (truthy (Some ev)) eqn:Et; simpl.
    + apply truthy_Some in Et. destruct (dateParse ev) as [te|] eqn:Ep.
      * rewrite setHours_end_of_day. simpl. rewrite Z.ltb_ge. split.
        -- intros Hle ev' te' [= <-] _ Hp. rewrite Ep in Hp. injection Hp as <-. exact Hle.
        -- intros Hall. now apply (Hall ev te).
      * simpl. split; [| reflexivity]. intros _ ev' te' [= <-] _ Hp. congruence.
    + split; [| reflexivity]. intros _ ev' te' [= <-] Hne.
      apply truthy_Some in Hne. congruence.
  - split; [intros _ ev te; discriminate | reflexivity].
Qed.

(** What [filterDateRange] computes on a record string that parses as a
    date: two absent bounds match unconditionally; a present start date that
    parses enforces [date >= start]; a present end date that parses
    enforces [date <= end], the end being moved to 23:59:59.999 of the local
    calendar day that holds the parsed end instant; a record dated like
    the end date passes. *)
Lemma filterDateRange_characterised (value : string) (tv : Z) (s e : option string) :
  dateParse value = Some tv ->
  (truthy s = false -> truthy e = false ->
   filterDateRange value {| startDate := s; endDate := e |} = true) /\
  (filterDateRange value {| startDate := s; endDate := e |} = true <->
     (forall sv ts, s = Some sv -> sv <> EmptyString -> dateParse sv = Some ts ->
                    (ts <= tv)%Z) /\
     (forall ev te, e = Some ev -> ev <> EmptyString -> dateParse ev = Some te ->
                    (tv <= endOfLocalDay te)%Z)) /\
  (forall te, (te <= endOfLocalDay te)%Z /\
              localDay (endOfLocalDay te) = localDay te /\
              localTimeOfDay (endOfLocalDay te) = 86399999%Z) /\
  (forall t te, (t <= endOfLocalDay te)%Z <-> (localDay t <= localDay te)%Z) /\
  filterDateRange value {| startDate := Some value; endDate := Some value |} = true.
Proof.
  intros Hv.
  assert (Hiff : forall s e,
    filterDateRange value {| startDate := s; endDate := e |} = true <->
     (forall sv ts, s = Some sv -> sv <> EmptyString -> dateParse sv = Some ts ->
                    (ts <= tv)%Z) /\
     (forall ev te, e = Some ev -> ev <> EmptyString -> dateParse ev = Some te ->
                    (tv <= endOfLocalDay te)%Z)).
  { intros s' e'. rewrite filterDateRange_checks. unfold newDate at 1 2. rewrite Hv.
    rewrite andb_true_iff, !negb_true_iff, startRejects_false, endRejects_false.
    reflexivity. }
  split; [| split; [apply Hiff | split; [apply endOfLocalDay_same_day |
                                          split; [apply le_endOfLocalDay |]]]].
  - intros Hs He. apply Hiff. split.
    + intros sv ts -> Hne _. apply truthy_Some in Hne. congruence.
    + intros ev te -> Hne _. apply truthy_Some in Hne. congruence.
  - apply Hiff. split.
    + intros sv ts [= <-] _ Hp. rewrite Hv in Hp. injection Hp as <-. lia.
    + intros ev te [= <-] _ Hp. rewrite Hv in Hp. injection Hp as <-.
      apply endOfLocalDay_same_day.
Qed.

(** C8, on the code: west of UTC the end date is not inclusive for the
    whole day.  An end date read as midnight UTC of day [D] falls, in local
    time, on the day before; the end boundary is 23:59:59.999 of that
    earlier day, and every record stamped on local day [D], the end date
    itself, is excluded. *)
Theorem C8_end_day_excluded_west_of_UTC (value e : string) (s : option string)
        (tv D : Z) :
  (- msPerDay <= localOffset < 0)%Z ->
  e <> EmptyString ->
  dateParse e = Some (D * msPerDay)%Z ->
  dateParse value = Some tv ->
  localDay tv = D ->
  filterDateRange value {| startDate := s; endDate := Some e |} = false.
Proof.
  intros Hwest He Hend Hv Hday.
  rewrite filterDateRange_checks. unfold newDate at 1 2. rewrite Hv.
  assert (Hrej : endRejects (Some tv) (Some e) = true).
  { unfold endRejects, newDate, date_gt.
    rewrite (proj2 (truthy_Some e) He), Hend, setHours_end_of_day. simpl.
    apply Z.ltb_lt. unfold endOfLocalDay. unfold localDay in Hday.
    unfold msPerDay in *. Z.div_mod_to_equations. lia. }
  rewrite Hrej. apply andb_false_r.
Qed.

(** *** How the evaluator reaches the three evaluators above *)

Lemma applyFilter_multiSelect (record : JsValue) (c : FilterCondition)
      (xs : JsArray) (fs : list string) :
  getNestedValue record c.(field) = JArr xs ->
  c.(value) = VArr fs ->
  applyFilter record c = filterMultiSelect (items xs) fs c.(operator).
Proof. intros Hfv Hv. unfold applyFilter. now rewrite Hfv, Hv. Qed.

Lemma applyFilter_amountRange (record : JsValue) (c : FilterCondition)
      (n : number) (r : RangeValue) :
  getNestedValue record c.(field) = JNum n ->
  c.(value) = VRange r ->
  c.(operator) = OpBetween ->
  applyFilter record c = filterAmountRange n r.
Proof. intros Hfv Hv Hop. unfold applyFilter. now rewrite Hfv, Hv, Hop. Qed.

Lemma applyFilter_dateRange (record : JsValue) (c : FilterCondition)
      (s : string) (d : DateRangeValue) :
  getNestedValue record c.(field) = JStr s ->
  c.(value) = VDateRange d ->
  c.(operator) = OpBetween ->
  applyFilter record c = filterDateRange s d.
Proof. intros Hfv Hv Hop. unfold applyFilter. now rewrite Hfv, Hv, Hop. Qed.

(** No bound rejects NaN: every comparison with it is false. *)
Lemma filterAmountRange_NaN (r : RangeValue) : filterAmountRange NaN r = true.
Proof.
  destruct r as [mn mx]. rewrite filterAmountRange_checks.
  assert (Hb : forall rej b, (forall m, rej m = false) -> boundRejects rej b = false).
  { intros rej b Hrej. apply boundRejects_enforced. intros m _. apply Hrej. }
  rewrite !Hb; [reflexivity | |]; intros m; unfold num_gt; now destruct m.
Qed.

End WithHost.
End EvaluatorProps.

(** ** Properties of the filter engine *)

Module EngineProps.
Import Js Types FilterUtils Spec EngineAux.

Section WithHost.
Context `{Host}.

(** *** Validity *)

Lemma present_bound (b : Bound) :
  negb (isNullBound b) && negb (isEmptyBound b) = negb (emptyBound b).
Proof. destruct b as [|s|n]; simpl; try reflexivity. Qed.

Lemma truthy_emptyDate (o : option string) : truthy o = negb (emptyDate o).
Proof. destruct o; reflexivity. Qed.

Lemma hasValidFilterValue_between (c : FilterCondition) :
  c.(operator) = OpBetween ->
  hasValidFilterValue c = boundedRange c.(value).
Proof.
  intros Hop. unfold hasValidFilterValue. rewrite Hop.
  destruct c.(value) as [s|n|b|l|r|d| |]; simpl; try reflexivity.
  - now destruct (str_eq s EmptyString).
  - rewrite !present_bound. now rewrite negb_andb.
  - rewrite !truthy_emptyDate. now rewrite negb_andb.
Qed.

Lemma hasValidFilterValue_other (c : FilterCondition) :
  c.(operator) <> OpBetween ->
  hasValidFilterValue c =
    match c.(value) with
    | VNull | VUndefined => false
    | VStr s => negb (str_eq s EmptyString)
    | VArr l => match l with [] => false | _ => true end
    | _ => true
    end.
Proof.
  intros Hop. unfold hasValidFilterValue.
  rewrite (bool_decide_eq_false_2 _ Hop).
  destruct c.(value) as [s|n|b|l|r|d| |]; simpl; try reflexivity.
  now destruct l.
Qed.

(** C3 (amended): the validity filter discards a condition exactly when its
    value is null/undefined or the empty string, or its operator is
    [between] and its value is not a range or date-range record with a
    non-empty bound, or its operator is not [between] and its value is the
    empty sequence; every other condition is kept. *)
Theorem C3_validity_depends_on_operator (c : FilterCondition) :
  hasValidFilterValue c = false <->
    c.(value) = VNull \/ c.(value) = VUndefined \/ c.(value) = VStr EmptyString \/
    (c.(operator) = OpBetween /\ boundedRange c.(value) = false) \/
    (c.(operator) <> OpBetween /\ c.(value) = VArr []).
Proof.
  destruct (decide (c.(operator) = OpBetween)) as [Hop|Hop].
  - rewrite (hasValidFilterValue_between c Hop). split.
    + intros Hb. right; right; right; left. now split.
    + intros [Hv|[Hv|[Hv|[[_ Hb]|[Hne _]]]]];
        try (rewrite Hv; reflexivity); [exact Hb | contradiction].
  - rewrite (hasValidFilterValue_other c Hop). split.
    + destruct c.(value) as [s|n|b|l|r|d| |]; try discriminate; auto.
      * rewrite negb_false_iff. intros Hs.
        apply EvaluatorProps.str_eq_true in Hs. subst. auto.
      * destruct l; [| discriminate]. intros _. right; right; right; right. now split.
    + intros [Hv|[Hv|[Hv|[[Hb _]|[_ Hv]]]]];
        try (rewrite Hv; reflexivity); contradiction.
Qed.

(** The empty values of the specification do fail the validity filter, as
    long as a range record comes with the operator [between]. *)
Lemma emptyValue_invalid (c : FilterCondition) :
  emptyValue c.(value) = true ->
  (conditionShape c.(value) = ShRange \/ conditionShape c.(value) = ShDateRange ->
   c.(operator) = OpBetween) ->
  hasValidFilterValue c = false.
Proof.
  intros Hempty Hlegal.
  destruct (decide (c.(operator) = OpBetween)) as [Hop|Hop].
  - rewrite (hasValidFilterValue_between c Hop).
    destruct c.(value) as [s|n|b|l|r|d| |]; simpl in *; try reflexivity;
      now rewrite Hempty.
  - rewrite (hasValidFilterValue_other c Hop).
    destruct c.(value) as [s|n|b|l|r|d| |]; simpl in *; try reflexivity;
      try discriminate.
    + now rewrite Hempty.
    + now destruct l.
    + exfalso. apply Hop, Hlegal. now left.
    + exfalso. apply Hop, Hlegal. now right.
Qed.

(** *** Identity *)

Lemma filter_all_false {A} (p : A -> bool) (l : list A) :
  Forall (fun x => p x = false) l -> List.filter p l = [].
Proof.
  induction 1 as [|x l Hx _ IH]; simpl; [reflexivity |].
  now rewrite Hx.
Qed.

Lemma emptyByRule_emptyValue (v : FilterValue) :
  emptyByRule v = true -> emptyValue v = true.
Proof. destruct v; simpl; try discriminate; trivial. Qed.

Lemma isRange_shape (v : FilterValue) :
  conditionShape v = ShRange \/ conditionShape v = ShDateRange -> isRange v = true.
Proof. destruct v; simpl; intros [Hs|Hs]; try discriminate; reflexivity. Qed.

(** No valid condition: the records are returned before any grouping. *)
Lemma applyFilters_no_valid (data : list JsValue) (cs : list FilterCondition) :
  Forall (fun c => hasValidFilterValue c = false) cs ->
  applyFilters data cs = Some data.
Proof.
  intros Hinv. unfold applyFilters. now rewrite (filter_all_false _ _ Hinv).
Qed.

(** C2 (amended): with no condition at all, and with conditions that are
    all invalid under the rules (empty string, empty sequence, range with
    both bounds null/empty), every range coming with the operator
    [between], [applyFilters] returns the records it was given,
    unchanged. *)
Theorem C2_identity_ranges_between (data : list JsValue) (cs : list FilterCondition) :
  Forall (fun c => emptyByRule c.(value) = true /\
                   (isRange c.(value) = true -> c.(operator) = OpBetween)) cs ->
  applyFilters data [] = Some data /\ applyFilters data cs = Some data.
Proof.
  intros Hinv. split; [reflexivity |].
  apply applyFilters_no_valid.
  eapply Forall_impl; [exact Hinv |]. intros c [Hempty Hbetween]. simpl.
  apply emptyValue_invalid; [now apply emptyByRule_emptyValue |].
  intros Hshape. now apply Hbetween, isRange_shape.
Qed.

(** *** Grouping *)

Lemma groupStep_Some (acc acc' : gmap string (list FilterCondition))
      (c : FilterCondition) (f : string) :
  groupStep acc c = Some acc' ->
  acc' !! f =
    if decide (c.(field) = f) then Some (default [] (acc !! f) ++ [c])
    else acc !! f.
Proof.
  unfold groupStep. destruct (acc !! c.(field)) as [g|] eqn:E.
  - intros [= <-]. rewrite lookup_alter.
    destruct (decide (c.(field) = f)) as [<-|Hne]; [now rewrite E | reflexivity].
  - destruct (inheritedByObject c.(field)); [discriminate |].
    intros [= <-]. rewrite lookup_alter.
    destruct (decide (c.(field) = f)) as [<-|Hne].
    + now rewrite lookup_insert_eq, E.
    + now rewrite lookup_insert_ne.
Qed.

(** The step throws exactly on a key that is not yet an own property and
    that a plain object inherits. *)
Lemma groupStep_None (acc : gmap string (list FilterCondition)) (c : FilterCondition) :
  groupStep acc c = None <->
  acc !! c.(field) = None /\ inheritedByObject c.(field) = true.
Proof.
  unfold groupStep. destruct (acc !! c.(field)) as [g|].
  - split; [discriminate | intros [Hn _]; discriminate].
  - destruct (inheritedByObject c.(field)); split; try discriminate; auto.
    intros [_ Hf]. discriminate.
Qed.

Lemma groupFrom_None (cs : list FilterCondition) : groupFrom None cs = None.
Proof. induction cs as [|c cs IH]; simpl; [reflexivity | exact IH]. Qed.

Lemma groupFrom_cons (acc : gmap string (list FilterCondition))
      (c : FilterCondition) (cs : list FilterCondition) :
  groupFrom (Some acc) (c :: cs) = groupFrom (groupStep acc c) cs.
Proof. reflexivity. Qed.

(** The reduction from an object none of whose own keys is an inherited
    name: it throws iff a condition is on an inherited name, and otherwise
    appends to each key the conditions on that field, in order. *)
Lemma groupFrom_spec (cs : list FilterCondition) :
  forall acc : gmap string (list FilterCondition),
    (forall k, is_Some (acc !! k) -> inheritedByObject k = false) ->
    if existsb (fun c => inheritedByObject c.(field)) cs
    then groupFrom (Some acc) cs = None
    else exists o, groupFrom (Some acc) cs = Some o /\
           forall f, o !! f =
             match List.filter (fun c => bool_decide (c.(field) = f)) cs with
             | [] => acc !! f
             | g => Some (default [] (acc !! f) ++ g)
             end.
Proof.
  induction cs as [|c cs IH]; intros acc Hown.
  - simpl. exists acc. split; reflexivity.
  - rewrite groupFrom_cons. cbn [existsb List.filter].
    destruct (inheritedByObject c.(field)) eqn:Einh; cbn [orb].
    + assert (Hstep : groupStep acc c = None).
      { apply groupStep_None. split; [| exact Einh].
        destruct (acc !! c.(field)) eqn:E; [| reflexivity].
        rewrite (Hown c.(field)) in Einh; [discriminate | now rewrite E]. }
      rewrite Hstep. apply groupFrom_None.
    + destruct (groupStep acc c) as [acc'|] eqn:Estep.
      2: { apply groupStep_None in Estep as [_ Hf]. congruence. }
      assert (Hown' : forall k, is_Some (acc' !! k) -> inheritedByObject k = false).
      { intros k. rewrite (groupStep_Some _ _ _ k Estep).
        destruct (decide (c.(field) = k)) as [<-|Hne]; [now intros _ | apply Hown]. }
      specialize (IH acc' Hown').
      destruct (existsb (fun c0 => inheritedByObject c0.(field)) cs); [exact IH |].
      destruct IH as (o & Ho & Hlookup). exists o. split; [exact Ho |].
      intros f. rewrite Hlookup, (groupStep_Some _ _ _ f Estep).
      destruct (decide (c.(field) = f)) as [Heq|Hne].
      * rewrite (bool_decide_eq_true_2 _ Heq). simpl.
        destruct (List.filter _ cs); simpl; [reflexivity | now rewrite <- app_assoc].
      * now rewrite (bool_decide_eq_false_2 _ Hne).
Qed.

(** The object built by the reduction: none when a valid condition is on an
    inherited name; otherwise it holds, under each field key that a valid
    condition names, the field group of that key, and nothing else. *)
Lemma filtersByField_spec (cs : list FilterCondition) :
  if throwsOn cs
  then filtersByField (validConditions cs) = None
  else exists o, filtersByField (validConditions cs) = Some o /\
         forall f, o !! f = match fieldGroup cs f with
                            | [] => None
                            | g => Some g
                            end.
Proof.
  unfold throwsOn, filtersByField.
  pose proof (groupFrom_spec (validConditions cs) ∅) as Hspec.
  destruct (existsb _ (validConditions cs)).
  - apply Hspec. intros k [g Hg]. now rewrite lookup_empty in Hg.
  - destruct Hspec as (o & Ho & Hlookup).
    { intros k [g Hg]. now rewrite lookup_empty in Hg. }
    exists o. split; [exact Ho |]. intros f. rewrite Hlookup. unfold fieldGroup.
    now destruct (List.filter _ (validConditions cs)).
Qed.

Lemma objectValues_groups (cs : list FilterCondition)
      (o : gmap string (list FilterCondition)) (g : list FilterCondition) :
  (forall f, o !! f = match fieldGroup cs f with [] => None | g => Some g end) ->
  In g (objectValues o) <-> exists f, fieldGroup cs f = g /\ g <> [].
Proof.
  intros Hlookup. unfold objectValues. rewrite <- list_elem_of_In, list_elem_of_fmap. split.
  - intros ([f g'] & -> & Hin). apply elem_of_map_to_list in Hin.
    rewrite Hlookup in Hin. exists f. simpl.
    destruct (fieldGroup cs f); [discriminate |]. now injection Hin as <-.
  - intros (f & <- & Hne). exists (f, fieldGroup cs f). split; [reflexivity |].
    apply elem_of_map_to_list. rewrite Hlookup.
    now destruct (fieldGroup cs f).
Qed.

(** The predicate [applyFilters] hands to [data.filter]. *)
Lemma every_group_some (cs : list FilterCondition)
      (o : gmap string (list FilterCondition)) (record : JsValue) :
  (forall f, o !! f = match fieldGroup cs f with [] => None | g => Some g end) ->
  groupsPass o record = true <-> keeps cs record.
Proof.
  intros Hlookup. unfold groupsPass. rewrite forallb_forall. unfold keeps. split.
  - intros Hall f Hne.
    assert (Hin : In (fieldGroup cs f) (objectValues o)).
    { apply (objectValues_groups cs o _ Hlookup). now exists f. }
    apply Hall, existsb_exists in Hin. exact Hin.
  - intros Hkeeps g Hg. apply (objectValues_groups cs o _ Hlookup) in Hg as (f & <- & Hne).
    apply existsb_exists. now apply Hkeeps.
Qed.

Lemma filter_all_true {A} (p : A -> bool) (l : list A) :
  (forall x, p x = true) -> List.filter p l = l.
Proof.
  intros Hp. induction l as [|x l IH]; simpl; [reflexivity |].
  now rewrite Hp, IH.
Qed.

(** [applyFilters] throws exactly when a valid condition is on a field named
    like a member that a plain object inherits. *)
Lemma applyFilters_throws (data : list JsValue) (cs : list FilterCondition) :
  applyFilters data cs = None <-> throwsOn cs = true.
Proof.
  unfold applyFilters. fold (validConditions cs).
  pose proof (filtersByField_spec cs) as Hspec. unfold throwsOn in *.
  destruct (validConditions cs) as [|c l] eqn:Evalid; simpl.
  - split; discriminate.
  - simpl in Hspec. destruct (inheritedByObject c.(field) || existsb _ l).
    + rewrite Hspec. split; reflexivity.
    + destruct Hspec as (o & -> & _). split; discriminate.
Qed.

(** C1, on the code: a valid condition on a field named like a member that
    every plain object inherits makes [applyFilters] throw, whatever the
    records and the other conditions: no record is kept or dropped. *)
Theorem C1_inherited_field_throws (data : list JsValue) (filters : list FilterCondition)
        (c : FilterCondition) :
  In c filters ->
  hasValidFilterValue c = true ->
  inheritedByObject c.(field) = true ->
  applyFilters data filters = None.
Proof.
  intros Hin Hvalid Hinh. apply applyFilters_throws. unfold throwsOn.
  apply existsb_exists. exists c. split; [| exact Hinh].
  unfold validConditions. apply filter_In. now split.
Qed.

End WithHost.
End EngineProps.

(** ** Properties of the sort comparator *)

Module SortProps.
Import Js Types FilterUtils DataTable Spec.

Section WithHost.
Context `{Host}.

(** An absent (or null) first operand compares as greater, whatever the
    second operand and the direction. *)
Lemma compareRows_absent_left (cfg : SortConfig) (a b : JsValue) :
  isNullish (getNestedValue a cfg.(key)) = true ->
  compareRows cfg a b = num_of_Z 1.
Proof. intros Ha. unfold compareRows. now rewrite Ha. Qed.

(** A present first operand compares as smaller than an absent second one,
    whatever the direction. *)
Lemma compareRows_absent_right (cfg : SortConfig) (a b : JsValue) :
  isNullish (getNestedValue a cfg.(key)) = false ->
  isNullish (getNestedValue b cfg.(key)) = true ->
  compareRows cfg a b = num_of_Z (-1).
Proof. intros Ha Hb. unfold compareRows. now rewrite Ha, Hb. Qed.

(** C9, on the code: two records that are both absent at the sort key do
    not compare as equal; each compares as greater than the other, in both
    directions. *)
Theorem C9_both_absent_compare_greater (cfg : SortConfig) (a b : JsValue) :
  absentAt a cfg.(key) ->
  absentAt b cfg.(key) ->
  compareRows cfg a b = num_of_Z 1 /\
  compareRows cfg b a = num_of_Z 1 /\
  num_eq (compareRows cfg a b) (num_of_Z 0) = false.
Proof.
  unfold absentAt. intros Ha Hb.
  rewrite !compareRows_absent_left by (rewrite ?Ha, ?Hb; reflexivity).
  repeat split.
Qed.

End WithHost.
End SortProps.

(** ** The theorems at concrete inputs, on the sample host *)

Module Concrete.
Import Js Types FilterUtils DataTable Spec SampleHost.
Import EvaluatorProps EngineProps SortProps.

(** The empty record lacks the key [toString], and a condition on it
    matches all the same. *)
Lemma C5_witness :
  lacksKey (obj []) "toString" /\
  ~ absentAt (obj []) (cond "toString" OpEquals (VStr "x")).(field) /\
  applyFilter (obj []) (cond "toString" OpEquals (VStr "x")) = true.
Proof.
  assert (Hlacks : lacksKey (obj []) "toString") by (vm_compute; reflexivity).
  split; [exact Hlacks |].
  apply (C5_inherited_key_matches (obj []) (cond "toString" OpEquals (VStr "x"))
           [] "toString" (list_to_map [])).
  - reflexivity.
  - reflexivity.
  - exact Hlacks.
  - vm_compute. reflexivity.
Defined.

(** One condition, on the field [constructor]. *)
Lemma C1_witness :
  hasValidFilterValue (cond "constructor" OpEquals (VStr "x")) = true /\
  inheritedByObject (cond "constructor" OpEquals (VStr "x")).(field) = true /\
  applyFilters [obj [("constructor", JStr "x")]] [cond "constructor" OpEquals (VStr "x")]
    = None.
Proof.
  assert (Hinh : inheritedByObject (cond "constructor" OpEquals (VStr "x")).(field) = true)
    by (vm_compute; reflexivity).
  split; [reflexivity |]. split; [exact Hinh |].
  apply (C1_inherited_field_throws _ _ (cond "constructor" OpEquals (VStr "x")));
    [now left | reflexivity | exact Hinh].
Defined.

(** A record whose key [a] holds null. *)
Lemma C10_witness :
  getNestedValue (obj [("a", JNull)]) (cond "a" OpContains (VStr "x")).(field) = JNull /\
  applyFilter (obj [("a", JNull)]) (cond "a" OpContains (VStr "x")) = false.
Proof.
  split; [vm_compute; reflexivity |].
  apply C10_null_value_fails. vm_compute. reflexivity.
Defined.

(** A boolean field against a string value: no rule, the record matches. *)
Lemma C4_witness :
  isNullish (getNestedValue (obj [("a", JBool true)])
                            (cond "a" OpEquals (VStr "x")).(field)) = false /\
  applyFilter (obj [("a", JBool true)]) (cond "a" OpEquals (VStr "x")) = true.
Proof.
  split; [vm_compute; reflexivity |].
  apply C4_fail_open_non_null; vm_compute; reflexivity.
Defined.

(** C4 as worded fails: a field that is present and null is covered by no
    dispatch rule, and the evaluator returns false on it. *)
Lemma C4_counterexample : ~ present_value_fails_open.
Proof.
  intros Hclaim.
  specialize (Hclaim (obj [("a", JNull)]) (cond "a" OpEquals (VStr "x"))).
  assert (Hres : applyFilter (obj [("a", JNull)]) (cond "a" OpEquals (VStr "x")) = false)
    by (vm_compute; reflexivity).
  rewrite Hclaim in Hres; [discriminate | | vm_compute; reflexivity].
  unfold absentAt. vm_compute. discriminate.
Qed.

(** C3 as worded fails: with the operator [between], a non-empty string is
    discarded although it is none of the empty values. *)
Lemma C3_counterexample : ~ validity_ignores_operator.
Proof.
  intros Hclaim.
  destruct (Hclaim (cond "a" OpBetween (VStr "abc"))) as [Hdiscard _].
  specialize (Hdiscard eq_refl). vm_compute in Hdiscard. discriminate.
Qed.

(** The other direction fails too: without [between], a range with two null
    bounds is kept. *)
Example empty_range_kept_without_between :
  emptyValue (VRange {| min := BNull; max := BNull |}) = true /\
  hasValidFilterValue (cond "a" OpEquals (VRange {| min := BNull; max := BNull |})) = true.
Proof. split; reflexivity. Qed.



(** Five hours behind UTC, a record stamped 10:00 on 2024-03-15 against a
    range that ends on 2024-03-15. *)
Lemma C8_witness :
  (- msPerDay <= localOffset < 0)%Z /\
  dateParse "2024-03-15" = Some (19797 * msPerDay)%Z /\
  dateParse "2024-03-15T10:00:00" = Some 1710514800000%Z /\
  localDay 1710514800000 = 19797%Z /\
  filterDateRange "2024-03-15T10:00:00"
    {| startDate := None; endDate := Some "2024-03-15" |} = false.
Proof.
  assert (Hwest : (- msPerDay <= localOffset < 0)%Z) by (vm_compute; split; [discriminate | reflexivity]).
  assert (Hend : dateParse "2024-03-15" = Some (19797 * msPerDay)%Z)
    by (vm_compute; reflexivity).
  assert (Hv : dateParse "2024-03-15T10:00:00" = Some 1710514800000%Z)
    by (vm_compute; reflexivity).
  assert (Hday : localDay 1710514800000 = 19797%Z) by (vm_compute; reflexivity).
  repeat (split; [assumption |]).
  apply (C8_end_day_excluded_west_of_UTC "2024-03-15T10:00:00" "2024-03-15" None
           1710514800000 19797 Hwest); [discriminate | exact Hend | exact Hv | exact Hday].
Defined.

(** Three conditions, each invalid by its rule, the range under [between]. *)
Lemma C2_witness :
  Forall (fun c => emptyByRule c.(value) = true /\
                   (isRange c.(value) = true -> c.(operator) = OpBetween)) allInvalid /\
  applyFilters [obj [("name", JStr "Ann")]; obj []] []
    = Some [obj [("name", JStr "Ann")]; obj []] /\
  applyFilters [obj [("name", JStr "Ann")]; obj []] allInvalid
    = Some [obj [("name", JStr "Ann")]; obj []].
Proof.
  assert (Hinv : Forall (fun c => emptyByRule c.(value) = true /\
                   (isRange c.(value) = true -> c.(operator) = OpBetween)) allInvalid).
  { repeat constructor; simpl; discriminate. }
  split; [exact Hinv |].
  apply (C2_identity_ranges_between [obj [("name", JStr "Ann")]; obj []] allInvalid Hinv).
Defined.

(** C2 as worded fails: a range with two null bounds under [equals] is
    invalid by the rules, yet passes the validity filter and excludes the
    record that lacks the field. *)
Lemma C2_counterexample : ~ identity_on_empty_values.
Proof.
  intros Hclaim.
  specialize (Hclaim [obj []]
                [cond "a" OpEquals (VRange {| min := BNull; max := BNull |})]).
  assert (Hres : applyFilters [obj []]
                   [cond "a" OpEquals (VRange {| min := BNull; max := BNull |})]
                 = Some []) by (vm_compute; reflexivity).
  rewrite Hclaim in Hres; [discriminate |].
  repeat constructor.
Qed.

(** Two rows without the key [k]. *)
Lemma C9_witness :
  absentAt (obj [("i", num 0)]) {| key := "k"; direction := desc |}.(key) /\
  absentAt (obj [("i", num 1)]) {| key := "k"; direction := desc |}.(key) /\
  compareRows {| key := "k"; direction := desc |} (obj [("i", num 0)]) (obj [("i", num 1)])
    = num_of_Z 1 /\
  compareRows {| key := "k"; direction := desc |} (obj [("i", num 1)]) (obj [("i", num 0)])
    = num_of_Z 1 /\
  num_eq (compareRows {| key := "k"; direction := desc |}
                      (obj [("i", num 0)]) (obj [("i", num 1)]))
         (num_of_Z 0) = false.
Proof.
  assert (Ha : absentAt (obj [("i", num 0)]) "k") by (vm_compute; reflexivity).
  assert (Hb : absentAt (obj [("i", num 1)]) "k") by (vm_compute; reflexivity).
  split; [exact Ha |]. split; [exact Hb |].
  apply (C9_both_absent_compare_greater {| key := "k"; direction := desc |} _ _ Ha Hb).
Defined.

End Concrete.

(** ** The examples of the specification, run on the sample host *)

Module Examples.
Import Js Types FilterUtils DataTable Spec SampleHost.

(** AND/OR composition: [age > 30] or [age < 10], and [dept = y]. *)
Example and_or_composition :
  applyFilters [young; senior]
    [ cond "age" OpGreaterThan (VNum (num_of_Z 30));
      cond "age" OpLessThan (VNum (num_of_Z 10));
      cond "dept" OpEquals (VStr "y") ]
  = Some [senior].
Proof. vm_compute. reflexivity. Qed.

Example text_case_insensitive : filterText "engineering" "ENG" OpContains = true.
Proof. reflexivity. Qed.

Example notIn_present : filterMultiSelect ["go"; "rust"] ["go"] OpNotIn = false.
Proof. reflexivity. Qed.

Example notIn_missing : filterMultiSelect ["go"; "rust"] ["java"] OpNotIn = true.
Proof. reflexivity. Qed.

Example date_same_day :
  filterDateRange "2024-03-15"
    {| startDate := Some "2024-03-15"; endDate := Some "2024-03-15" |} = true.
Proof. vm_compute. reflexivity. Qed.

Example date_next_day :
  filterDateRange "2024-03-16"
    {| startDate := Some "2024-03-15"; endDate := Some "2024-03-15" |} = false.
Proof. vm_compute. reflexivity. Qed.

Example amount_malformed_min_ignored :
  filterAmountRange (num_of_Z 50) {| min := BStr "abc"; max := BNum (num_of_Z 100) |} = true /\
  filterAmountRange (num_of_Z 150) {| min := BStr "abc"; max := BNum (num_of_Z 100) |} = false.
Proof. split; vm_compute; reflexivity. Qed.

Example nested_path :
  getNestedValue (obj [("address", obj [("city", JStr "Pune")])]) "address.city" = JStr "Pune" /\
  getNestedValue (obj [("address", obj [("city", JStr "Pune")])]) "address.zip.code" = JUndefined /\
  getNestedValue (obj [("skills", JArr (ArrayOf ["go"; "rust"]))]) "skills.1" = JStr "rust".
Proof. repeat split; vm_compute; reflexivity. Qed.

(** A range with two null bounds under an operator other than [between]
    passes the validity filter, and then excludes the records that lack the
    field. *)
Example empty_range_other_operator_excludes :
  applyFilters [obj []] [cond "a" OpEquals (VRange {| min := BNull; max := BNull |})]
  = Some [].
Proof. vm_compute. reflexivity. Qed.

(** Keys that a record lacks and inherits: methods resolve to functions,
    on which nothing resolves; the prototype chain ends in null. *)
Example inherited_keys :
  getNestedValue (obj []) "toString" = JFunction "toString" /\
  getNestedValue (obj []) "constructor.name" = JUndefined /\
  getNestedValue (obj []) "__proto__.__proto__" = JNull /\
  getNestedValue (obj [("skills", JArr (ArrayOf ["go"]))]) "skills.map" = JFunction "map" /\
  getNestedValue (obj [("skills", JArr (ArrayOf ["go"]))]) "skills.__proto__.length"
    = JNum (num_of_Z 0) /\
  getNestedValue (obj [("skills", JArr (ArrayOf ["go"]))]) "skills.__proto__.__proto__.map"
    = JUndefined /\
  getNestedValue (obj [("toString", JStr "own")]) "toString" = JStr "own".
Proof. repeat split; vm_compute; reflexivity. Qed.

(** A condition on an inherited key matches a record that lacks the key,
    and makes the engine throw. *)
Example inherited_key_condition :
  applyFilter (obj []) (cond "toString" OpEquals (VStr "x")) = true /\
  applyFilter (obj []) (cond "missing" OpEquals (VStr "x")) = false /\
  applyFilters [obj []] [cond "toString" OpEquals (VStr "x")] = None /\
  applyFilters [] [cond "__proto__" OpEquals (VStr "x")] = None /\
  applyFilters [obj []] [cond "toString" OpEquals (VStr EmptyString)] = Some [obj []].
Proof. repeat split; vm_compute; reflexivity. Qed.

(** An absent row against a present one, in both argument orders and both
    directions. *)
Example absent_sorts_last :
  compareRows {| key := "k"; direction := asc |} (obj []) (obj [("k", num 1)]) = num_of_Z 1 /\
  compareRows {| key := "k"; direction := desc |} (obj []) (obj [("k", num 1)]) = num_of_Z 1 /\
  compareRows {| key := "k"; direction := asc |} (obj [("k", num 1)]) (obj []) = num_of_Z (-1) /\
  compareRows {| key := "k"; direction := desc |} (obj [("k", num 1)]) (obj []) = num_of_Z (-1).
Proof. repeat split; vm_compute; reflexivity. Qed.

End Examples.

(** ** Further properties of the filter engine *)

Module EngineExtra.
Import Js Types FilterUtils Spec EngineAux.

Section WithHost.
Context `{Host}.

Lemma in_fieldGroup (cs : list FilterCondition) (f : string) (c : FilterCondition) :
  In c (fieldGroup cs f) <->
  In c cs /\ hasValidFilterValue c = true /\ c.(field) = f.
Proof.
  unfold fieldGroup, validConditions.
  rewrite !filter_In, bool_decide_eq_true. tauto.
Qed.

(** [keeps] by membership: every valid condition has a valid condition on
    the same field that evaluates true. *)
Lemma keeps_members (cs : list FilterCondition) (record : JsValue) :
  keeps cs record <->
  (forall c, In c cs -> hasValidFilterValue c = true ->
     exists c', In c' cs /\ hasValidFilterValue c' = true /\
                c'.(field) = c.(field) /\ applyFilter record c' = true).
Proof.
  unfold keeps. split.
  - intros Hk c Hin Hvalid.
    destruct (Hk c.(field)) as (c' & Hc' & Hpass).
    { intros Hnil. assert (Hc : In c (fieldGroup cs c.(field))) by now apply in_fieldGroup.
      rewrite Hnil in Hc. destruct Hc. }
    apply in_fieldGroup in Hc' as (Hin' & Hvalid' & Hf). now exists c'.
  - intros Hm f Hne.
    destruct (fieldGroup cs f) as [|c g] eqn:Eg; [contradiction |].
    assert (Hc : In c (fieldGroup cs f)) by (rewrite Eg; now left).
    apply in_fieldGroup in Hc as (Hin & Hvalid & Hf).
    destruct (Hm c Hin Hvalid) as (c' & Hin' & Hvalid' & Hf' & Hpass).
    exists c'. split; [| exact Hpass].
    rewrite <- Eg. apply in_fieldGroup. repeat split; congruence.
Qed.

Lemma passes_keeps (cs : list FilterCondition) (record : JsValue) :
  passes cs record = true <-> keeps cs record.
Proof.
  rewrite keeps_members. unfold passes. rewrite forallb_forall. split.
  - intros Hall c Hin Hvalid.
    assert (Hc : In c (validConditions cs)) by (apply filter_In; now split).
    apply Hall, existsb_exists in Hc as (c' & Hc' & Hpass).
    apply in_fieldGroup in Hc' as (Hin' & Hvalid' & Hf). now exists c'.
  - intros Hm c Hc. apply filter_In in Hc as [Hin Hvalid].
    destruct (Hm c Hin Hvalid) as (c' & Hin' & Hvalid' & Hf & Hpass).
    apply existsb_exists. exists c'. split; [| exact Hpass].
    now apply in_fieldGroup.
Qed.

(** What [applyFilters] returns: nothing when a valid condition is on an
    inherited name, and otherwise the records that pass. *)
Lemma applyFilters_passes (data : list JsValue) (cs : list FilterCondition) :
  applyFilters data cs
  = if throwsOn cs then None else Some (List.filter (passes cs) data).
Proof.
  pose proof (EngineProps.filtersByField_spec cs) as Hspec.
  unfold applyFilters. fold (validConditions cs).
  destruct (validConditions cs) as [|c l] eqn:Evalid.
  - unfold throwsOn, passes. rewrite Evalid. simpl. f_equal.
    symmetry. apply EngineProps.filter_all_true. reflexivity.
  - cbn [length Nat.eqb]. destruct (throwsOn cs).
    + now rewrite Hspec.
    + destruct Hspec as (o & -> & Hlookup). f_equal. apply filter_ext.
      intros record. apply eq_true_iff_eq.
      change (groupsPass o record = true <-> passes cs record = true).
      now rewrite (EngineProps.every_group_some cs o record Hlookup), passes_keeps.
Qed.

Lemma applyFilters_Some (data result : list JsValue) (cs : list FilterCondition) :
  applyFilters data cs = Some result ->
  throwsOn cs = false /\ result = List.filter (passes cs) data.
Proof.
  rewrite applyFilters_passes. destruct (throwsOn cs); [discriminate |].
  now intros [= <-].
Qed.

Lemma throwsOn_members (cs : list FilterCondition) :
  throwsOn cs = true <->
  exists c, In c cs /\ hasValidFilterValue c = true /\ inheritedByObject c.(field) = true.
Proof.
  unfold throwsOn, validConditions. rewrite existsb_exists. split.
  - intros (c & Hc & Hinh). apply filter_In in Hc as [Hin Hvalid]. now exists c.
  - intros (c & Hin & Hvalid & Hinh). exists c. split; [| exact Hinh].
    now apply filter_In.
Qed.

Lemma filter_sublist {A} (p : A -> bool) (l : list A) : sublist (List.filter p l) l.
Proof.
  induction l as [|x l IH]; simpl; [constructor |].
  destruct (p x); now constructor.
Qed.

Lemma filter_filter_same {A} (p : A -> bool) (l : list A) :
  List.filter p (List.filter p l) = List.filter p l.
Proof.
  induction l as [|x l IH]; simpl; [reflexivity |].
  destruct (p x) eqn:Ex; simpl; [now rewrite Ex, IH | exact IH].
Qed.

Lemma filter_imp_sublist {A} (p q : A -> bool) (l : list A) :
  (forall x, p x = true -> q x = true) ->
  sublist (List.filter p l) (List.filter q l).
Proof.
  intros Himp. induction l as [|x l IH]; simpl; [constructor |].
  destruct (p x) eqn:Ep.
  - rewrite (Himp x Ep). now constructor.
  - destruct (q x); [now constructor | exact IH].
Qed.

(** X1: when [applyFilters] returns, its result is a subsequence of the
    records: no record is added, duplicated or moved. *)
Theorem applyFilters_sublist (data result : list JsValue) (cs : list FilterCondition) :
  applyFilters data cs = Some result ->
  sublist result data.
Proof.
  intros Hres. apply applyFilters_Some in Hres as [_ ->]. apply filter_sublist.
Qed.

(** X2: filtering a result again with the same conditions returns it
    unchanged. *)
Theorem applyFilters_idempotent (data result : list JsValue) (cs : list FilterCondition) :
  applyFilters data cs = Some result ->
  applyFilters result cs = Some result.
Proof.
  intros Hres. apply applyFilters_Some in Hres as [Hno ->].
  rewrite applyFilters_passes, Hno. f_equal. apply filter_filter_same.
Qed.

(** X3: each record is judged on its own: filtering a concatenation is
    concatenating the filtered parts, and throws when filtering a part
    does. *)
Theorem applyFilters_app (data1 data2 : list JsValue) (cs : list FilterCondition) :
  applyFilters (data1 ++ data2) cs
  = match applyFilters data1 cs, applyFilters data2 cs with
    | Some result1, Some result2 => Some (result1 ++ result2)
    | _, _ => None
    end.
Proof.
  rewrite !applyFilters_passes. destruct (throwsOn cs); [reflexivity |].
  f_equal. apply List.filter_app.
Qed.

(** X4: the outcome depends on the conditions only through the set of valid
    ones: order, repetition and invalid conditions make no difference. *)
Theorem applyFilters_same_valid_set (data : list JsValue) (cs cs' : list FilterCondition) :
  (forall c, In c (validConditions cs) <-> In c (validConditions cs')) ->
  applyFilters data cs = applyFilters data cs'.
Proof.
  intros Hsame.
  assert (Hmem : forall l c, In c (validConditions l) <->
                             In c l /\ hasValidFilterValue c = true).
  { intros l c. unfold validConditions. apply filter_In. }
  assert (Hthrows : throwsOn cs = throwsOn cs').
  { apply eq_true_iff_eq. unfold throwsOn. rewrite !existsb_exists.
    split; intros (c & Hc & Hinh); exists c; (split; [now apply Hsame | exact Hinh]). }
  assert (Hdir : forall l l' record,
    (forall c, In c (validConditions l) <-> In c (validConditions l')) ->
    keeps l record -> keeps l' record).
  { intros l l' record Hll. rewrite !keeps_members. intros Hk c Hin Hvalid.
    assert (Hc : In c (validConditions l)) by (apply Hll, Hmem; now split).
    apply Hmem in Hc as [Hin0 _].
    destruct (Hk c Hin0 Hvalid) as (c' & Hin' & Hvalid' & Hf & Hpass).
    exists c'. repeat split; try assumption.
    assert (Hc' : In c' (validConditions l')) by (apply Hll, Hmem; now split).
    now apply Hmem in Hc'. }
  rewrite !applyFilters_passes, Hthrows. destruct (throwsOn cs'); [reflexivity |].
  f_equal. apply filter_ext. intros record. apply eq_true_iff_eq.
  rewrite !passes_keeps. split; apply Hdir; [exact Hsame |].
  intros c. symmetry. apply Hsame.
Qed.

(** X5: a valid condition on a field that no other valid condition names,
    and that is not an inherited name, narrows the result: it is ANDed with
    the rest. *)
Theorem applyFilters_new_field_narrows (data : list JsValue)
        (c : FilterCondition) (cs : list FilterCondition) :
  hasValidFilterValue c = true ->
  inheritedByObject c.(field) = false ->
  (forall c', In c' cs -> hasValidFilterValue c' = true -> c'.(field) <> c.(field)) ->
  applyFilters data (c :: cs)
  = option_map (List.filter (fun record => applyFilter record c)) (applyFilters data cs).
Proof.
  intros Hvalid Hown Hfresh. rewrite !applyFilters_passes.
  assert (Hthrows : throwsOn (c :: cs) = throwsOn cs).
  { unfold throwsOn, validConditions. simpl. rewrite Hvalid. simpl. now rewrite Hown. }
  rewrite Hthrows. destruct (throwsOn cs); [reflexivity |]. simpl. f_equal.
  induction data as [|r data IH]; simpl; [reflexivity |].
  assert (Hr : passes (c :: cs) r = passes cs r && applyFilter r c).
  { apply eq_true_iff_eq. rewrite andb_true_iff, !passes_keeps, !keeps_members. split.
    - intros Hk. split.
      + intros c0 Hin0 Hv0.
        destruct (Hk c0 (or_intror Hin0) Hv0) as (c' & [<-|Hin'] & Hv' & Hf & Hpass).
        * exfalso. now apply (Hfresh c0 Hin0 Hv0).
        * now exists c'.
      + destruct (Hk c (or_introl eq_refl) Hvalid) as (c' & [<-|Hin'] & Hv' & Hf & Hpass).
        * exact Hpass.
        * exfalso. now apply (Hfresh c' Hin' Hv').
    - intros [Hk Hc] c0 [<-|Hin0] Hv0.
      + exists c. repeat split; try assumption. now left.
      + destruct (Hk c0 Hin0 Hv0) as (c' & Hin' & Hv' & Hf & Hpass).
        exists c'. repeat split; try assumption. now right. }
  rewrite Hr. destruct (passes cs r); simpl; [| exact IH].
  destruct (applyFilter r c); simpl; now rewrite IH.
Qed.

(** X6: a condition on a field that a valid condition already names can
    only widen the result: it is ORed into that field's group. *)
Theorem applyFilters_same_field_widens (data result : list JsValue)
        (c c0 : FilterCondition) (cs : list FilterCondition) :
  In c0 cs -> hasValidFilterValue c0 = true -> c0.(field) = c.(field) ->
  applyFilters data cs = Some result ->
  exists result',
    applyFilters data (c :: cs) = Some result' /\ sublist result result'.
Proof.
  intros Hin0 Hv0 Hf0 Hres. apply applyFilters_Some in Hres as [Hno ->].
  assert (Hno' : throwsOn (c :: cs) = false).
  { apply Bool.not_true_iff_false. intros Ht.
    apply throwsOn_members in Ht as (c1 & [<-|Hin1] & Hv1 & Hinh).
    - apply Bool.not_true_iff_false in Hno. apply Hno, throwsOn_members.
      exists c0. repeat split; try assumption. now rewrite Hf0.
    - apply Bool.not_true_iff_false in Hno. apply Hno, throwsOn_members.
      now exists c1. }
  exists (List.filter (passes (c :: cs)) data).
  rewrite applyFilters_passes, Hno'. split; [reflexivity |].
  apply filter_imp_sublist.
  intros r. rewrite !passes_keeps, !keeps_members. intros Hk c1 [<-|Hin1] Hv1.
  - destruct (Hk c0 Hin0 Hv0) as (c' & Hin' & Hv' & Hf & Hpass).
    exists c'. repeat split; try assumption; [now right | congruence].
  - destruct (Hk c1 Hin1 Hv1) as (c' & Hin' & Hv' & Hf & Hpass).
    exists c'. repeat split; try assumption. now right.
Qed.

(** X7: a valid condition excludes every record whose value at its field
    resolves to undefined or null, whatever its operator and the other
    conditions. *)
Theorem applyFilters_excludes_missing_field (data result : list JsValue)
        (cs : list FilterCondition) (c : FilterCondition) (record : JsValue) :
  In c cs -> hasValidFilterValue c = true ->
  isNullish (getNestedValue record c.(field)) = true ->
  applyFilters data cs = Some result ->
  ~ In record result.
Proof.
  intros Hin Hvalid Hnull Hres. apply applyFilters_Some in Hres as [_ ->].
  rewrite filter_In. intros [_ Hpass]. apply passes_keeps in Hpass.
  pose proof (proj1 (keeps_members cs record) Hpass) as Hm.
  destruct (Hm c Hin Hvalid) as (c' & _ & _ & Hf & Htrue).
  rewrite (EvaluatorProps.applyFilter_nullish record c') in Htrue; [discriminate |].
  now rewrite Hf.
Qed.

(** X8: when the grouping does not throw, the object it builds holds, under
    each field key, the valid conditions on that field in their original
    order, and holds no empty group. *)
Theorem filtersByField_groups (cs : list FilterCondition)
        (o : gmap string (list FilterCondition)) (f : string)
        (g : list FilterCondition) :
  filtersByField (validConditions cs) = Some o ->
  o !! f = Some g <->
  g <> [] /\
  g = List.filter (fun c => bool_decide (c.(field) = f))
                  (List.filter hasValidFilterValue cs).
Proof.
  intros Ho. pose proof (EngineProps.filtersByField_spec cs) as Hspec.
  destruct (throwsOn cs); [congruence |].
  destruct Hspec as (o' & Ho' & Hlookup). rewrite Ho in Ho'. injection Ho' as <-.
  rewrite Hlookup. unfold fieldGroup, validConditions.
  destruct (List.filter _ (List.filter hasValidFilterValue cs)) as [|c l].
  - split; [discriminate | intros [Hne ->]; contradiction].
  - split; [intros [= <-]; split; [discriminate | reflexivity] | intros [_ ->]; reflexivity].
Qed.

(** X30: when no valid condition is on a field named like a member that a
    plain object inherits, [applyFilters] keeps a record iff every field
    group of the valid conditions has a condition that evaluates true on
    the record: OR within a field group, AND across the field groups. *)
Theorem applyFilters_and_across_or_within (data : list JsValue)
        (filters : list FilterCondition) :
  throwsOn filters = false ->
  exists keep : JsValue -> bool,
    applyFilters data filters = Some (List.filter keep data) /\
    forall record, keep record = true <-> keeps filters record.
Proof.
  intros Hno. exists (passes filters). split.
  - now rewrite applyFilters_passes, Hno.
  - intros record. apply passes_keeps.
Qed.

End WithHost.
End EngineExtra.

(** ** Further properties of the evaluators *)

Module EvaluatorExtra.
Import Js Types FilterUtils Spec Checks.

Section WithHost.
Context `{Host}.

(** *** Paths *)

Lemma split_dot_aux_app (p q cur : string) :
  split_dot_aux cur (p ++ String "."%char q)
  = split_dot_aux cur p ++ split_dot q.
Proof.
  revert cur. induction p as [|c p IH]; intros cur; simpl.
  - reflexivity.
  - destruct (Ascii.eqb c "."%char); simpl; now rewrite IH.
Qed.

(** X9: resolving [p.q] is resolving [q] on what [p] resolves to. *)
Theorem getNestedValue_dot (obj : JsValue) (p q : string) :
  getNestedValue obj (p ++ String "."%char q)
  = getNestedValue (getNestedValue obj p) q.
Proof.
  unfold getNestedValue, split_dot. rewrite split_dot_aux_app.
  apply foldl_app.
Qed.

Lemma split_dot_aux_cons (cur s : string) :
  exists k ks, split_dot_aux cur s = k :: ks.
Proof.
  revert cur. induction s as [|c s IH]; intros cur; simpl; [now eexists _, _ |].
  destruct (Ascii.eqb c "."%char); [now eexists _, _ | apply IH].
Qed.

(** X10: on a root that is neither an object nor an array, every path is
    absent, the empty path included. *)
Theorem getNestedValue_primitive_root (root : JsValue) (path : string) :
  (forall m, root <> JObj m) -> (forall l, root <> JArr l) ->
  getNestedValue root path = JUndefined.
Proof.
  intros Hobj Harr. unfold getNestedValue, split_dot.
  destruct (split_dot_aux_cons EmptyString path) as (k & ks & ->). simpl.
  rewrite (EvaluatorProps.getProperty_not_keyed root k Hobj Harr).
  apply EvaluatorProps.resolve_from_undefined.
Qed.

(** *** Text *)

Lemma prefix_refl (s : string) : String.prefix s s = true.
Proof.
  induction s as [|c s IH]; simpl; [reflexivity |].
  destruct (ascii_dec c c); [exact IH | contradiction].
Qed.

Lemma includes_prefix (s p : string) :
  String.prefix p s = true -> includes s p = true.
Proof. intros Hp. destruct s; cbn [includes]; now rewrite Hp. Qed.

Lemma includes_substring (n : nat) (s p : string) :
  String.substring n (String.length p) s = p -> includes s p = true.
Proof.
  revert s. induction n as [|n IH]; intros s Hsub.
  - apply includes_prefix. now apply String.prefix_correct.
  - destruct s as [|c s]; simpl in Hsub.
    + subst p. reflexivity.
    + cbn [includes]. rewrite (IH s Hsub). apply orb_true_r.
Qed.

Lemma endsWith_refl (s : string) : endsWith s s = true.
Proof.
  unfold endsWith. rewrite Nat.leb_refl, Nat.sub_diag. simpl.
  apply String.eqb_eq. apply String.prefix_correct, prefix_refl.
Qed.

(** X11: on text, [doesNotContain] is the negation of [contains]; a value
    that matches [equals] matches [contains], [startsWith] and [endsWith];
    one that matches [startsWith] or [endsWith] matches [contains]. *)
Theorem filterText_operators (v f : string) :
  filterText v f OpDoesNotContain = negb (filterText v f OpContains) /\
  (filterText v f OpEquals = true ->
     filterText v f OpContains = true /\
     filterText v f OpStartsWith = true /\
     filterText v f OpEndsWith = true) /\
  (filterText v f OpStartsWith = true -> filterText v f OpContains = true) /\
  (filterText v f OpEndsWith = true -> filterText v f OpContains = true).
Proof.
  unfold filterText. split; [reflexivity |]. split; [| split].
  - intros Heq. apply EvaluatorProps.str_eq_true in Heq. rewrite Heq.
    unfold startsWith. rewrite prefix_refl, endsWith_refl.
    now rewrite (includes_prefix _ _ (prefix_refl _)).
  - unfold startsWith. apply includes_prefix.
  - unfold endsWith. intros Hends. apply andb_true_iff in Hends as [_ Hsub].
    apply String.eqb_eq in Hsub. now apply includes_substring in Hsub.
Qed.

(** X12: on strings, a condition with [is] and the same condition with
    [equals] evaluate alike on every record. *)
Theorem applyFilter_is_equals (record : JsValue) (i f v : string) :
  applyFilter record {| id := i; field := f; operator := OpIs; value := VStr v |}
  = applyFilter record {| id := i; field := f; operator := OpEquals; value := VStr v |}.
Proof.
  unfold applyFilter. simpl.
  destruct (isNullish (getNestedValue record f)); [reflexivity |].
  destruct (getNestedValue record f); reflexivity.
Qed.

(** *** Numbers *)

Lemma Qle_bool_false (x y : Q) : Qle_bool x y = false <-> Qlt y x.
Proof.
  rewrite <- Bool.not_true_iff_false, Qle_bool_iff. split.
  - apply Qnot_le_lt.
  - apply Qlt_not_le.
Qed.

Lemma Qeq_bool_le (x y : Q) : Qeq_bool x y = Qle_bool x y && Qle_bool y x.
Proof.
  apply eq_true_iff_eq. rewrite andb_true_iff, Qeq_bool_iff, !Qle_bool_iff. split.
  - intros Heq. rewrite Heq. split; apply Qle_refl.
  - intros [Hxy Hyx]. now apply Qle_antisym.
Qed.

Lemma Qle_bool_total (x y : Q) : Qle_bool x y = false -> Qle_bool y x = true.
Proof.
  intros Hf. apply Qle_bool_false in Hf. apply Qle_bool_iff. now apply Qlt_le_weak.
Qed.

(** X13: off NaN, the five numeric operators are consistent: [>=] is [>]
    or [=], [<=] is [<] or [=], [<] is the negation of [>=], [>] the
    negation of [<=], and [=] holds iff both [>=] and [<=] do. *)
Theorem filterNumber_operators (v f : number) :
  isNaN v = false -> isNaN f = false ->
  filterNumber v f OpGreaterThanOrEqual
    = filterNumber v f OpGreaterThan || filterNumber v f OpEquals /\
  filterNumber v f OpLessThanOrEqual
    = filterNumber v f OpLessThan || filterNumber v f OpEquals /\
  filterNumber v f OpLessThan = negb (filterNumber v f OpGreaterThanOrEqual) /\
  filterNumber v f OpGreaterThan = negb (filterNumber v f OpLessThanOrEqual) /\
  filterNumber v f OpEquals
    = filterNumber v f OpGreaterThanOrEqual && filterNumber v f OpLessThanOrEqual.
Proof.
  intros Hv Hf. unfold filterNumber, num_ge, num_gt.
  destruct v as [| |x|], f as [| |y|]; simpl in *; try discriminate;
    try (repeat split; reflexivity).
  rewrite !Qeq_bool_le.
  destruct (Qle_bool x y) eqn:Exy, (Qle_bool y x) eqn:Eyx; simpl;
    repeat split; try reflexivity.
  all: apply Qle_bool_total in Exy; congruence.
Qed.

(** X14: a NaN on either side fails each of the five numeric operators. *)
Theorem filterNumber_NaN (n : number) (op : FilterOperator) :
  In op (Fields.OPERATORS_BY_TYPE Fields.FNumber) ->
  filterNumber NaN n op = false /\ filterNumber n NaN op = false.
Proof.
  simpl. intros [<-|[<-|[<-|[<-|[<-|[]]]]]]; unfold filterNumber, num_ge, num_gt;
    destruct n; split; reflexivity.
Qed.

(** *** Operators that do not belong to the shapes *)

(** X15: the operator of a condition with a boolean value is never looked
    at: the condition evaluates alike under any two operators, and on a
    boolean field it holds iff the two booleans are equal, under [isNot]
    as under [is]. *)
Theorem applyFilter_boolean_ignores_operator (record : JsValue) (i f : string)
        (b : bool) (op : FilterOperator) :
  (forall op',
     applyFilter record {| id := i; field := f; operator := op; value := VBool b |}
     = applyFilter record {| id := i; field := f; operator := op'; value := VBool b |}) /\
  (forall b0, getNestedValue record f = JBool b0 ->
     applyFilter record {| id := i; field := f; operator := op; value := VBool b |}
     = Bool.eqb b0 b).
Proof.
  unfold applyFilter. simpl. split.
  - intros op'. destruct (isNullish (getNestedValue record f)); [reflexivity |].
    destruct (getNestedValue record f); reflexivity.
  - intros b0 Hfv. now rewrite Hfv.
Qed.

(** X16: an operator that does not belong to the shapes at hand never
    excludes: a string against a string under an operator that is neither
    a text nor a single-select one, a number against a number under a
    non-numeric operator, a sequence against a sequence under an operator
    other than [in] and [notIn], all evaluate to true. *)
Theorem applyFilter_foreign_operator (record : JsValue) (c : FilterCondition) :
  (forall s v, getNestedValue record c.(field) = JStr s -> c.(value) = VStr v ->
     ~ In c.(operator) (Fields.OPERATORS_BY_TYPE Fields.FText) ->
     ~ In c.(operator) (Fields.OPERATORS_BY_TYPE Fields.FSingleSelect) ->
     applyFilter record c = true) /\
  (forall n v, getNestedValue record c.(field) = JNum n -> c.(value) = VNum v ->
     ~ In c.(operator) (Fields.OPERATORS_BY_TYPE Fields.FNumber) ->
     applyFilter record c = true) /\
  (forall xs vs, getNestedValue record c.(field) = JArr xs -> c.(value) = VArr vs ->
     ~ In c.(operator) (Fields.OPERATORS_BY_TYPE Fields.FMultiSelect) ->
     applyFilter record c = true).
Proof.
  unfold applyFilter. repeat split.
  - intros s v Hfv Hv Htext Hsel. rewrite Hfv, Hv. simpl in *.
    destruct c.(operator); simpl; try reflexivity; exfalso; tauto.
  - intros n v Hfv Hv Hnum. rewrite Hfv, Hv. simpl in *.
    destruct c.(operator); simpl; try reflexivity; exfalso; tauto.
  - intros xs vs Hfv Hv Hms. rewrite Hfv, Hv. simpl in *.
    unfold filterMultiSelect.
    destruct c.(operator); simpl; try (now destruct (length vs =? 0)%nat);
      exfalso; tauto.
Qed.

(** *** Dates *)

(** X17: a date that does not parse never excludes: a record whose date is
    invalid matches every range, and a bound that is invalid constrains
    like an absent one. *)
Theorem filterDateRange_invalid_dates (value : string) (s e : option string) :
  (dateParse value = None ->
     filterDateRange value {| startDate := s; endDate := e |} = true) /\
  (forall sv, s = Some sv -> dateParse sv = None ->
     filterDateRange value {| startDate := s; endDate := e |}
     = filterDateRange value {| startDate := None; endDate := e |}) /\
  (forall ev, e = Some ev -> dateParse ev = None ->
     filterDateRange value {| startDate := s; endDate := e |}
     = filterDateRange value {| startDate := s; endDate := None |}).
Proof.
  rewrite !EvaluatorProps.filterDateRange_checks.
  unfold startRejects, endRejects, newDate, date_gt. repeat split.
  - intros Hv. rewrite Hv.
    destruct s as [sv|], e as [ev|]; simpl;
      repeat match goal with
             | |- context [dateParse ?x] => destruct (dateParse x); simpl
             | |- context [str_eq ?a ?b] => destruct (str_eq a b); simpl
             end; reflexivity.
  - intros sv -> Hp. rewrite Hp.
    assert (Hn : forall d, date_lt d None = false) by (intros [t|]; reflexivity).
    now rewrite Hn, andb_false_r.
  - intros ev -> Hp. rewrite Hp. cbn [setHours date_lt].
    now rewrite andb_false_r.
Qed.

(** *** Amounts *)

Lemma num_lt_trans_contra (v m M : number) :
  isNaN v = false ->
  num_lt M m = true -> num_lt v m = false -> num_lt M v = false -> False.
Proof.
  intros Hv HMm Hvm HMv.
  destruct v as [| |x|], m as [| |y|], M as [| |z|]; simpl in *; try discriminate.
  rewrite negb_true_iff in HMm. rewrite negb_false_iff in Hvm, HMv.
  apply Qle_bool_false in HMm. apply Qle_bool_iff in Hvm, HMv.
  apply (Qlt_irrefl z). apply Qlt_le_trans with y; [exact HMm |].
  now apply Qle_trans with x.
Qed.

(** X18: a non-empty string bound constrains exactly like the number
    [parseFloat] reads from it. *)
Theorem filterAmountRange_string_bound (v : number) (s : string) (b : Bound) :
  s <> EmptyString ->
  filterAmountRange v {| min := BStr s; max := b |}
    = filterAmountRange v {| min := BNum (parseFloat s); max := b |} /\
  filterAmountRange v {| min := b; max := BStr s |}
    = filterAmountRange v {| min := b; max := BNum (parseFloat s) |}.
Proof.
  intros Hs. apply EvaluatorProps.str_eq_false in Hs.
  rewrite !EvaluatorProps.filterAmountRange_checks.
  assert (Hb : forall rej, boundRejects rej (BStr s) = boundRejects rej (BNum (parseFloat s))).
  { intros rej. unfold boundRejects. simpl. now rewrite Hs. }
  now rewrite !Hb.
Qed.

(** X19: a range whose enforced minimum is above its enforced maximum
    matches no numeric value. *)
Theorem filterAmountRange_inverted (v m M : number) (mn mx : Bound) :
  isNaN v = false ->
  enforcedBound mn = Some m -> enforcedBound mx = Some M ->
  num_lt M m = true ->
  filterAmountRange v {| min := mn; max := mx |} = false.
Proof.
  intros Hv Hm HM Hinv. rewrite EvaluatorProps.filterAmountRange_checks.
  destruct (boundRejects (num_lt v) mn) eqn:Emin; [reflexivity |].
  destruct (boundRejects (num_gt v) mx) eqn:Emax; [reflexivity |].
  exfalso.
  pose proof (proj1 (EvaluatorProps.boundRejects_enforced _ _) Emin m Hm) as Hlo.
  pose proof (proj1 (EvaluatorProps.boundRejects_enforced _ _) Emax M HM) as Hhi.
  exact (num_lt_trans_contra v m M Hv Hinv Hlo Hhi).
Qed.

End WithHost.
End EvaluatorExtra.

(** ** Properties of the filter builder, the filter row and the inputs *)

Module BuilderProps.
Import Js Types FilterUtils Spec.

Section WithHost.
Context `{Host}.

Lemma applyFilters_valid (data : list JsValue) (cs cs' : list FilterCondition) :
  validConditions cs = validConditions cs' ->
  applyFilters data cs = applyFilters data cs'.
Proof. unfold applyFilters, validConditions. now intros ->. Qed.

Lemma newValue_invalid (t : Fields.FieldType) (i f : string) (op : FilterOperator) :
  t <> Fields.FBoolean ->
  (t = Fields.FDate \/ t = Fields.FAmount -> op = OpBetween) ->
  hasValidFilterValue {| id := i; field := f; operator := op;
                         value := FilterBuilder.newValue t |} = false.
Proof.
  intros Hb Hop. destruct t; simpl; try reflexivity; try contradiction;
    try (now destruct op); rewrite Hop by tauto; reflexivity.
Qed.

(** X20: a filter row added while the first field is not a boolean one
    passes no validity check, so the filtered records stay what they were;
    with no field at all the handler throws. *)
Theorem handleAddFilter_does_not_filter (newId : string)
        (fd : Fields.FieldDefinition) (fields : list Fields.FieldDefinition)
        (filters : list FilterCondition) :
  fd.(Fields.type) <> Fields.FBoolean ->
  FilterBuilder.handleAddFilter newId [] filters = None /\
  exists filters',
    FilterBuilder.handleAddFilter newId (fd :: fields) filters = Some filters' /\
    length filters' = S (length filters) /\
    forall data, applyFilters data filters' = applyFilters data filters.
Proof.
  intros Hb. split; [reflexivity |]. eexists. split; [reflexivity |].
  split; [rewrite length_app; simpl; lia |].
  intros data. apply applyFilters_valid. unfold validConditions.
  rewrite List.filter_app. simpl.
  rewrite newValue_invalid; [apply app_nil_r | exact Hb |].
  intros [Ht|Ht]; now rewrite Ht.
Qed.

Lemma filter_all_true_on {A} (p : A -> bool) (l : list A) :
  Forall (fun x => p x = true) l -> List.filter p l = l.
Proof.
  induction 1 as [|x l Hx _ IH]; simpl; [reflexivity |].
  now rewrite Hx, IH.
Qed.

(** X21: removing the identifier that was just added gives back the
    filters, provided no earlier filter carries it. *)
Theorem handleRemoveFilter_after_add (newId : string)
        (fields : list Fields.FieldDefinition)
        (filters filters' : list FilterCondition) :
  Forall (fun f => f.(id) <> newId) filters ->
  FilterBuilder.handleAddFilter newId fields filters = Some filters' ->
  FilterBuilder.handleRemoveFilter newId filters' = filters.
Proof.
  intros Hfresh Hadd. destruct fields as [|fd fields]; [discriminate |].
  injection Hadd as <-. unfold FilterBuilder.handleRemoveFilter.
  rewrite List.filter_app. simpl.
  rewrite (proj2 (EvaluatorProps.str_eq_true newId newId) eq_refl). simpl.
  rewrite app_nil_r. apply filter_all_true_on.
  eapply Forall_impl; [exact Hfresh |]. intros f Hf. simpl in Hf.
  apply negb_true_iff. now apply EvaluatorProps.str_eq_false.
Qed.

(** [handleRemoveFilter] drops every filter with the identifier, also
    when several share it, and keeps the others in their order. *)
Lemma handleRemoveFilter_removes (filterId : string) (filters : list FilterCondition) :
  sublist (FilterBuilder.handleRemoveFilter filterId filters) filters /\
  (forall f, In f (FilterBuilder.handleRemoveFilter filterId filters)
             <-> In f filters /\ f.(id) <> filterId).
Proof.
  unfold FilterBuilder.handleRemoveFilter. split; [apply EngineExtra.filter_sublist |].
  intros f. rewrite filter_In, negb_true_iff, EvaluatorProps.str_eq_false. tauto.
Qed.

(** X22: an update that leaves the identifier alone keeps the identifiers,
    hence the number and order of the filters, leaves the filters with
    another identifier untouched, and applies only once however often it
    is repeated. *)
Theorem handleUpdateFilter_keeps_ids (filterId : string) (updates : Partial.Condition)
        (filters : list FilterCondition) :
  updates.(Partial.id) = None ->
  map id (FilterBuilder.handleUpdateFilter filterId updates filters) = map id filters /\
  (forall i f, filters !! i = Some f -> f.(id) <> filterId ->
     FilterBuilder.handleUpdateFilter filterId updates filters !! i = Some f) /\
  FilterBuilder.handleUpdateFilter filterId updates
    (FilterBuilder.handleUpdateFilter filterId updates filters)
  = FilterBuilder.handleUpdateFilter filterId updates filters.
Proof.
  intros Hid. unfold FilterBuilder.handleUpdateFilter.
  assert (Hkeep : forall f, (Partial.spread f updates).(id) = f.(id)).
  { intros f. unfold Partial.spread. simpl. now rewrite Hid. }
  split; [| split].
  - rewrite map_map. apply map_ext. intros f.
    destruct (str_eq f.(id) filterId); [apply Hkeep | reflexivity].
  - intros i f Hi Hne. rewrite list_lookup_fmap, Hi. simpl.
    now rewrite (proj2 (EvaluatorProps.str_eq_false _ _) Hne).
  - rewrite map_map. apply map_ext. intros f.
    destruct (str_eq f.(id) filterId) eqn:Ef; [| now rewrite Ef].
    rewrite Hkeep, Ef. unfold Partial.spread. simpl.
    destruct f as [fi ff fo fv], updates as [ui uf uo uv]; simpl in *. subst ui.
    f_equal; [now destruct uf | now destruct uo | now destruct uv].
Qed.

(** X23: choosing a field in a row resets the row: once the update is
    applied the row is on the chosen field, carries the first operator of
    the field's type and, unless the type is boolean, passes no validity
    check; a key that names no field causes no update. *)
Theorem handleFieldChange_resets (fields : list Fields.FieldDefinition)
        (filter : FilterCondition) (newFieldKey : string) :
  match FilterRow.handleFieldChange fields filter newFieldKey with
  | None => FilterRow.findField fields newFieldKey = None
  | Some (filterId, updates) =>
      filterId = filter.(id) /\
      exists fd,
        FilterRow.findField fields newFieldKey = Some fd /\
        fd.(Fields.key) = newFieldKey /\
        In fd fields /\
        let row := Partial.spread filter updates in
        row.(id) = filter.(id) /\
        row.(field) = newFieldKey /\
        head (Fields.OPERATORS_BY_TYPE fd.(Fields.type)) = Some row.(operator) /\
        (fd.(Fields.type) <> Fields.FBoolean -> hasValidFilterValue row = false)
  end.
Proof.
  unfold FilterRow.handleFieldChange.
  destruct (FilterRow.findField fields newFieldKey) as [fd|] eqn:Efind; [| reflexivity].
  split; [reflexivity |]. exists fd. split; [reflexivity |].
  unfold FilterRow.findField in Efind. apply find_some in Efind as [Hin Hkey].
  apply EvaluatorProps.str_eq_true in Hkey.
  split; [exact Hkey |]. split; [exact Hin |].
  unfold Partial.spread. simpl.
  split; [reflexivity |]. split; [reflexivity |].
  split; [now destruct fd.(Fields.type) |].
  intros Hb. unfold hasValidFilterValue. simpl.
  destruct fd.(Fields.type); simpl; try reflexivity; contradiction.
Qed.

(** X24: the two places that build a default condition agree on the value
    for every field type, and on the operator for every type but text,
    where a new row starts with [contains] and a field change with
    [equals]; both operators are legal for the type. *)
Theorem default_conditions_agree (t : Fields.FieldType) :
  FilterBuilder.newValue t = FilterRow.defaultValue t /\
  In (FilterBuilder.newOperator t) (Fields.OPERATORS_BY_TYPE t) /\
  (head (Fields.OPERATORS_BY_TYPE t) = Some (FilterBuilder.newOperator t)
     <-> t <> Fields.FText).
Proof.
  destruct t; simpl; (split; [reflexivity |]); (split; [tauto |]);
    split; try discriminate; try reflexivity; try (intros Hc; congruence).
Qed.

Section WithNumber.
Variable toNumber : string -> number.

(** X25: the number input hands on the empty string or a number that is
    not NaN, nothing else; with an operator other than [between] the
    condition it feeds is valid exactly when a number was handed on. *)
Theorem numberHandleChange_never_NaN (inputValue : string) (v : FilterValue) :
  FilterInputs.numberHandleChange toNumber inputValue = Some v ->
  (v = VStr EmptyString /\ inputValue = EmptyString \/
   exists n, v = VNum n /\ isNaN n = false /\ inputValue <> EmptyString) /\
  forall i f op, op <> OpBetween ->
    hasValidFilterValue {| id := i; field := f; operator := op; value := v |}
    = negb (str_eq inputValue EmptyString).
Proof.
  unfold FilterInputs.numberHandleChange.
  destruct (str_eq inputValue EmptyString) eqn:Ee.
  - intros [= <-]. apply EvaluatorProps.str_eq_true in Ee. split; [now left |].
    intros i f op Hop. reflexivity.
  - destruct (isNaN (toNumber inputValue)) eqn:En; simpl; [discriminate |].
    intros [= <-]. apply EvaluatorProps.str_eq_false in Ee. split.
    + right. now exists (toNumber inputValue).
    + intros i f op Hop. unfold hasValidFilterValue. simpl.
      now rewrite (bool_decide_eq_false_2 _ Hop).
Qed.

(** X26: a [between] condition whose range went through both handlers of
    the amount input is valid iff one of the two boxes is not empty,
    whatever the range was before; the handlers never leave a string in a
    bound. *)
Theorem amount_input_validity (r : RangeValue) (a b i f : string) :
  let r' := FilterInputs.amountHandleMaxChange toNumber
              (FilterInputs.amountHandleMinChange toNumber r a) b in
  hasValidFilterValue {| id := i; field := f; operator := OpBetween; value := VRange r' |}
    = negb (str_eq a EmptyString && str_eq b EmptyString) /\
  (forall s, r'.(min) <> BStr s) /\ (forall s, r'.(max) <> BStr s).
Proof.
  unfold FilterInputs.amountHandleMaxChange, FilterInputs.amountHandleMinChange,
    hasValidFilterValue. simpl.
  destruct (str_eq a EmptyString), (str_eq b EmptyString); simpl;
    repeat split; try reflexivity; intros s; discriminate.
Qed.

End WithNumber.

Lemma truthy_orNull (s : string) :
  truthy (FilterInputs.orNull s) = negb (str_eq s EmptyString).
Proof.
  unfold FilterInputs.orNull. destruct (str_eq s EmptyString) eqn:Es; simpl;
    [reflexivity | now rewrite Es].
Qed.

(** X27: a [between] condition whose date range went through both handlers
    of the date input is valid iff one of the two boxes is not empty; a
    cleared box leaves null, never the empty string. *)
Theorem date_input_validity (d : DateRangeValue) (a b i f : string) :
  let d' := FilterInputs.dateHandleEndDateChange
              (FilterInputs.dateHandleStartDateChange d a) b in
  hasValidFilterValue {| id := i; field := f; operator := OpBetween; value := VDateRange d' |}
    = negb (str_eq a EmptyString && str_eq b EmptyString) /\
  d'.(startDate) <> Some EmptyString /\ d'.(endDate) <> Some EmptyString.
Proof.
  unfold FilterInputs.dateHandleEndDateChange, FilterInputs.dateHandleStartDateChange,
    hasValidFilterValue. simpl. rewrite !truthy_orNull.
  split; [now destruct (str_eq a EmptyString), (str_eq b EmptyString) |].
  unfold FilterInputs.orNull.
  split; [destruct (str_eq a EmptyString) eqn:E | destruct (str_eq b EmptyString) eqn:E];
    try discriminate; intros [= ->]; discriminate.
Qed.

End WithHost.
End BuilderProps.

(** ** Properties of the sort request and of the comparator on numbers *)

Module SortExtra.
Import Js Types FilterUtils DataTable DataTableSort.

Section WithHost.
Context `{Host}.

(** X28: a sort request always sorts by the clicked column; it sorts
    descending exactly when that column was sorted ascending, so that
    two clicks on the sorted column give back the configuration, and a
    click on another column or with no sort starts ascending. *)
Theorem handleSort_toggles (sortConfig : option SortConfig) (columnKey : string) :
  (handleSort sortConfig columnKey).(key) = columnKey /\
  ((handleSort sortConfig columnKey).(direction) = desc <->
     exists c, sortConfig = Some c /\ c.(key) = columnKey /\ c.(direction) = asc) /\
  (forall c, handleSort (Some (handleSort (Some c) c.(key))) c.(key) = c).
Proof.
  split; [reflexivity |]. split.
  - unfold handleSort. simpl. destruct sortConfig as [[k d]|]; simpl.
    + destruct (str_eq k columnKey) eqn:Ek, d; simpl; split;
        try discriminate; try reflexivity.
      * intros _. apply EvaluatorProps.str_eq_true in Ek. now exists {| key := k; direction := asc |}.
      * intros (c & [= <-] & _ & Hd). discriminate.
      * intros (c & [= <-] & Hk & _). simpl in Hk.
        apply EvaluatorProps.str_eq_false in Ek. contradiction.
      * intros (c & [= <-] & _ & Hd). discriminate.
    + split; [discriminate | intros (c & Hc & _); discriminate].
  - intros [k d]. unfold handleSort. simpl.
    rewrite (proj2 (EvaluatorProps.str_eq_true k k) eq_refl).
    now destruct d.
Qed.

Lemma num_sub_negative (x y : number) :
  num_lt (num_sub x y) (num_of_Z 0) = num_lt x y.
Proof.
  destruct x as [| |p|], y as [| |q|]; simpl; try reflexivity.
  f_equal. apply eq_true_iff_eq. rewrite !Qle_bool_iff.
  unfold inject_Z. split; intros Hle; lra.
Qed.

Lemma num_sub_positive (x y : number) :
  num_lt (num_of_Z 0) (num_sub x y) = num_lt y x.
Proof.
  destruct x as [| |p|], y as [| |q|]; simpl; try reflexivity.
  f_equal. apply eq_true_iff_eq. rewrite !Qle_bool_iff.
  unfold inject_Z. split; intros Hle; lra.
Qed.

Lemma num_neg_negative (n : number) :
  num_lt (num_neg n) (num_of_Z 0) = num_lt (num_of_Z 0) n.
Proof.
  destruct n as [| |p|]; simpl; try reflexivity.
  f_equal. apply eq_true_iff_eq. rewrite !Qle_bool_iff.
  unfold inject_Z. split; intros Hle; lra.
Qed.

Lemma num_neg_positive (n : number) :
  num_lt (num_of_Z 0) (num_neg n) = num_lt n (num_of_Z 0).
Proof.
  destruct n as [| |p|]; simpl; try reflexivity.
  f_equal. apply eq_true_iff_eq. rewrite !Qle_bool_iff.
  unfold inject_Z. split; intros Hle; lra.
Qed.

(** X29: on two rows with numbers at the sort key, the comparator is
    negative ascending exactly when the first number is the smaller and
    positive exactly when it is the larger; descending, the two signs are
    exchanged. *)
Theorem compareRows_numbers (k : string) (a b : JsValue) (x y : number) :
  getNestedValue a k = JNum x ->
  getNestedValue b k = JNum y ->
  num_lt (compareRows {| key := k; direction := asc |} a b) (num_of_Z 0) = num_lt x y /\
  num_lt (num_of_Z 0) (compareRows {| key := k; direction := asc |} a b) = num_lt y x /\
  num_lt (compareRows {| key := k; direction := desc |} a b) (num_of_Z 0) = num_lt y x /\
  num_lt (num_of_Z 0) (compareRows {| key := k; direction := desc |} a b) = num_lt x y.
Proof.
  intros Ha Hb. unfold compareRows. cbn [key direction]. rewrite Ha, Hb.
  cbn [isNullish].
  rewrite num_neg_negative, num_neg_positive, num_sub_negative, num_sub_positive.
  repeat split.
Qed.

End WithHost.
End SortExtra.

(** ** The further properties at concrete inputs, on the sample host *)

Module ExtraConcrete.
Import Js Types FilterUtils DataTable Spec EngineAux SampleHost SampleData.
Import EngineExtra EvaluatorExtra BuilderProps SortExtra.

(** Order, repetition and an invalid condition. *)
Lemma same_valid_set_witness :
  applyFilters [ann; bob] [nameContainsAn; emptyName; salaryAbove100]
  = applyFilters [ann; bob] [salaryAbove100; nameContainsAn; nameContainsAn].
Proof.
  apply applyFilters_same_valid_set.
  intros c. vm_compute. tauto.
Defined.

(** The rows named like "an". *)
Lemma sublist_witness :
  applyFilters [ann; bob] [nameContainsAn] = Some [ann] /\
  sublist [ann] [ann; bob].
Proof.
  assert (Hres : applyFilters [ann; bob] [nameContainsAn] = Some [ann])
    by (vm_compute; reflexivity).
  split; [exact Hres |].
  exact (applyFilters_sublist [ann; bob] [ann] [nameContainsAn] Hres).
Defined.

Lemma idempotent_witness :
  applyFilters [ann; bob] [nameContainsAn] = Some [ann] /\
  applyFilters [ann] [nameContainsAn] = Some [ann].
Proof.
  assert (Hres : applyFilters [ann; bob] [nameContainsAn] = Some [ann])
    by (vm_compute; reflexivity).
  split; [exact Hres |].
  exact (applyFilters_idempotent [ann; bob] [ann] [nameContainsAn] Hres).
Defined.

(** A salary condition next to a name condition. *)
Lemma new_field_narrows_witness :
  hasValidFilterValue salaryAbove100 = true /\
  inheritedByObject salaryAbove100.(field) = false /\
  applyFilters [ann; bob] [salaryAbove100; nameContainsAn]
  = option_map (List.filter (fun record => applyFilter record salaryAbove100))
               (applyFilters [ann; bob] [nameContainsAn]).
Proof.
  assert (Hown : inheritedByObject salaryAbove100.(field) = false)
    by (vm_compute; reflexivity).
  split; [reflexivity |]. split; [exact Hown |].
  apply applyFilters_new_field_narrows; [reflexivity | exact Hown |].
  intros c' [<-|[]] _. vm_compute. discriminate.
Defined.

(** A second name condition next to the first. *)
Lemma same_field_widens_witness :
  In nameContainsAn [nameContainsAn] /\
  hasValidFilterValue nameContainsAn = true /\
  nameContainsAn.(field) = nameEqualsBob.(field) /\
  applyFilters [ann; bob] [nameContainsAn] = Some [ann] /\
  exists result',
    applyFilters [ann; bob] [nameEqualsBob; nameContainsAn] = Some result' /\
    sublist [ann] result'.
Proof.
  assert (Hin : In nameContainsAn [nameContainsAn]) by now left.
  assert (Hres : applyFilters [ann; bob] [nameContainsAn] = Some [ann])
    by (vm_compute; reflexivity).
  split; [exact Hin |]. split; [reflexivity |]. split; [reflexivity |].
  split; [exact Hres |].
  exact (applyFilters_same_field_widens [ann; bob] [ann] nameEqualsBob nameContainsAn
           [nameContainsAn] Hin eq_refl eq_refl Hres).
Defined.

(** Bob has no address: [isNot Oslo] excludes him. *)
Lemma excludes_missing_field_witness :
  isNullish (getNestedValue bob cityIsNot.(field)) = true /\
  applyFilters [ann; bob] [nameContainsAn; cityIsNot] = Some [ann] /\
  ~ In bob [ann].
Proof.
  assert (Hnull : isNullish (getNestedValue bob cityIsNot.(field)) = true)
    by (vm_compute; reflexivity).
  assert (Hres : applyFilters [ann; bob] [nameContainsAn; cityIsNot] = Some [ann])
    by (vm_compute; reflexivity).
  split; [exact Hnull |]. split; [exact Hres |].
  apply (applyFilters_excludes_missing_field [ann; bob] [ann] [nameContainsAn; cityIsNot]
           cityIsNot bob); [right; now left | reflexivity | exact Hnull | exact Hres].
Defined.

(** Two conditions on the name, one on the salary. *)
Lemma groups_witness :
  exists o,
    filtersByField (validConditions [nameContainsAn; salaryAbove100; nameEqualsBob]) = Some o /\
    (o !! "name" = Some [nameContainsAn; nameEqualsBob] <->
     [nameContainsAn; nameEqualsBob] <> [] /\
     [nameContainsAn; nameEqualsBob]
     = List.filter (fun c => bool_decide (c.(field) = "name"))
                   (List.filter hasValidFilterValue
                                [nameContainsAn; salaryAbove100; nameEqualsBob])).
Proof.
  eexists. split; [vm_compute; reflexivity |].
  apply (filtersByField_groups [nameContainsAn; salaryAbove100; nameEqualsBob]).
  vm_compute. reflexivity.
Defined.

Lemma and_or_witness :
  throwsOn [nameContainsAn; salaryAbove100; nameEqualsBob] = false /\
  exists keep : JsValue -> bool,
    applyFilters [ann; bob] [nameContainsAn; salaryAbove100; nameEqualsBob]
      = Some (List.filter keep [ann; bob]) /\
    forall record,
      keep record = true <-> keeps [nameContainsAn; salaryAbove100; nameEqualsBob] record.
Proof.
  assert (Hno : throwsOn [nameContainsAn; salaryAbove100; nameEqualsBob] = false)
    by (vm_compute; reflexivity).
  split; [exact Hno |].
  exact (applyFilters_and_across_or_within [ann; bob]
           [nameContainsAn; salaryAbove100; nameEqualsBob] Hno).
Defined.

(** A string as root. *)
Lemma primitive_root_witness :
  getNestedValue (JStr "x") "length" = JUndefined.
Proof.
  apply getNestedValue_primitive_root; intros ?; discriminate.
Defined.

(** 3 against 5. *)
Lemma filterNumber_operators_witness :
  isNaN (num_of_Z 3) = false /\ isNaN (num_of_Z 5) = false /\
  filterNumber (num_of_Z 3) (num_of_Z 5) OpLessThan
    = negb (filterNumber (num_of_Z 3) (num_of_Z 5) OpGreaterThanOrEqual).
Proof.
  split; [reflexivity |]. split; [reflexivity |].
  apply (filterNumber_operators (num_of_Z 3) (num_of_Z 5) eq_refl eq_refl).
Defined.

Lemma filterNumber_NaN_witness :
  In OpLessThanOrEqual (Fields.OPERATORS_BY_TYPE Fields.FNumber) /\
  filterNumber NaN (num_of_Z 5) OpLessThanOrEqual = false /\
  filterNumber (num_of_Z 5) NaN OpLessThanOrEqual = false.
Proof.
  assert (Hin : In OpLessThanOrEqual (Fields.OPERATORS_BY_TYPE Fields.FNumber))
    by (simpl; tauto).
  split; [exact Hin |].
  exact (filterNumber_NaN (num_of_Z 5) OpLessThanOrEqual Hin).
Defined.

(** The bound ["100"] and the bound [100]. *)
Lemma string_bound_witness :
  filterAmountRange (num_of_Z 120) {| min := BStr "100"; max := BNull |}
    = filterAmountRange (num_of_Z 120) {| min := BNum (parseFloat "100"); max := BNull |} /\
  filterAmountRange (num_of_Z 120) {| min := BNull; max := BStr "100" |}
    = filterAmountRange (num_of_Z 120) {| min := BNull; max := BNum (parseFloat "100") |}.
Proof.
  apply (filterAmountRange_string_bound (num_of_Z 120) "100" BNull). discriminate.
Defined.

(** From 100 to 10. *)
Lemma inverted_range_witness :
  filterAmountRange (num_of_Z 50)
    {| min := BNum (num_of_Z 100); max := BNum (num_of_Z 10) |} = false.
Proof.
  apply (filterAmountRange_inverted (num_of_Z 50) (num_of_Z 100) (num_of_Z 10));
    reflexivity.
Defined.

(** A new row while the first field is a text field. *)
Lemma add_filter_witness :
  nameField.(Fields.type) <> Fields.FBoolean /\
  FilterBuilder.handleAddFilter "new" [] [salaryAbove100] = None /\
  exists filters',
    FilterBuilder.handleAddFilter "new" [nameField; salaryField] [salaryAbove100]
      = Some filters' /\
    length filters' = 2%nat /\
    forall data, applyFilters data filters' = applyFilters data [salaryAbove100].
Proof.
  assert (Ht : nameField.(Fields.type) <> Fields.FBoolean) by discriminate.
  split; [exact Ht |].
  exact (handleAddFilter_does_not_filter "new" nameField [salaryField] [salaryAbove100] Ht).
Defined.

Lemma remove_after_add_witness :
  FilterBuilder.handleRemoveFilter "new"
    [salaryAbove100;
     {| id := "new"; field := "name"; operator := OpContains; value := VStr EmptyString |}]
  = [salaryAbove100].
Proof.
  apply (handleRemoveFilter_after_add "new" [nameField] [salaryAbove100]).
  - repeat constructor. discriminate.
  - reflexivity.
Defined.

(** Typing a value into the row [f1]. *)
Lemma update_keeps_ids_witness :
  map id (FilterBuilder.handleUpdateFilter "f1"
            (FilterRow.handleValueChange nameContainsAn (VStr "bo")).2
            [nameContainsAn; salaryAbove100])
  = ["f1"; "f3"].
Proof.
  apply (handleUpdateFilter_keeps_ids "f1"
           (FilterRow.handleValueChange nameContainsAn (VStr "bo")).2
           [nameContainsAn; salaryAbove100]).
  reflexivity.
Defined.

(** Typing 42 into the number input. *)
Lemma number_input_witness :
  FilterInputs.numberHandleChange parseDecimal "42" = Some (VNum (parseDecimal "42")) /\
  forall i f op, op <> OpBetween ->
    hasValidFilterValue {| id := i; field := f; operator := op;
                           value := VNum (parseDecimal "42") |}
    = negb (str_eq "42" EmptyString).
Proof.
  assert (Hin : FilterInputs.numberHandleChange parseDecimal "42"
                = Some (VNum (parseDecimal "42"))) by reflexivity.
  split; [exact Hin |].
  apply (numberHandleChange_never_NaN parseDecimal "42" _ Hin).
Defined.

(** Ann earns 120, Bob 80. *)
Lemma compareRows_numbers_witness :
  getNestedValue ann "salary" = JNum (num_of_Z 120) /\
  getNestedValue bob "salary" = JNum (num_of_Z 80) /\
  num_lt (compareRows {| key := "salary"; direction := asc |} ann bob) (num_of_Z 0)
    = num_lt (num_of_Z 120) (num_of_Z 80).
Proof.
  assert (Ha : getNestedValue ann "salary" = JNum (num_of_Z 120)) by (vm_compute; reflexivity).
  assert (Hb : getNestedValue bob "salary" = JNum (num_of_Z 80)) by (vm_compute; reflexivity).
  split; [exact Ha |]. split; [exact Hb |].
  apply (compareRows_numbers "salary" ann bob _ _ Ha Hb).
Defined.

End ExtraConcrete.
